(** * Windows resource handling of Nuitka: [nuitka/utils/WindowsResources.py]

    A shallow embedding of the module and the properties of its five public
    operations.  The Python code is a thin layer over [kernel32], reached
    through [ctypes]; every foreign call is kept as a call to a platform
    interface, so that each statement about control flow holds for every
    behaviour of the operating system, and a reference platform gives the
    statements about file contents something to run on. *)

From Stdlib Require Import ZArith String List Bool Lia.
From stdpp Require Import base gmap strings list fin_maps.
Import ListNotations.

Local Open Scope Z_scope.

(** ** Values crossing the Python / kernel32 boundary *)

(** The four predefined resource kinds. *)
Definition RT_MANIFEST : Z := 24.
Definition RT_RCDATA : Z := 10.
Definition RT_GROUP_ICON : Z := 14.
Definition RT_ICON : Z := 3.

(** The Python values whose truth value the module tests: the [None] a
    function returns when it falls off its end, and the integers of the
    foreign calls. *)
Inductive PyValue :=
| PyNone
| PyInt (n : Z).

(** Python's [bool(v)]. *)
Definition truthy (v : PyValue) : bool :=
  match v with
  | PyNone => false
  | PyInt n => negb (n =? 0)
  end.

(** A resource identifier: an integer id or a text name.  In the callback the
    name arrives as a [LONG]; a text name is kept as the text it designates. *)
Inductive ResName :=
| IntId (n : Z)
| TextName (s : string).

#[global] Instance ResName_eq_dec : EqDecision ResName.
Proof. solve_decision. Defined.

(** A file name as the caller passes it: an object whose type is [str], or an
    object of another type ([bytes], or [unicode] on Python 2). *)
Inductive PyPath :=
| StrPath (s : string)
| OtherPath (s : string).

Definition type_is_str (p : PyPath) : bool :=
  match p with
  | StrPath _ => true
  | OtherPath _ => false
  end.

Definition path_text (p : PyPath) : string :=
  match p with
  | StrPath s => s
  | OtherPath s => s
  end.

(** What [getResourcesFromDLL] appends to [result]: the bare name, or the
    triple [(lpType, lpName, data)]. *)
Inductive Item :=
| ItemName (name : ResName)
| ItemData (kind : Z) (name : ResName) (data : list Byte.byte).

(** The exceptions of the module: [ctypes.WinError()] built from the last
    error code, an exception raised by the foreign call itself (argument
    conversion, access violation), a failed [assert], and a failed tuple
    unpacking. *)
Inductive PyExc :=
| WinError (code : Z)
| CtypesError (tag : Z)
| AssertionError
| TypeError.

Inductive Outcome (A : Type) :=
| Returned (a : A)
| Raised (e : PyExc).
Arguments Returned {A} a.
Arguments Raised {A} e.

(** The result of one foreign call: a value, or an exception of the binding. *)
Inductive Foreign (A : Type) :=
| FRet (a : A)
| FRaise (tag : Z).
Arguments FRet {A} a.
Arguments FRaise {A} tag.

Definition lift_foreign {A} (r : Foreign A) : Outcome A :=
  match r with
  | FRet a => Returned a
  | FRaise tag => Raised (CtypesError tag)
  end.

(** ** The trace of foreign calls *)

Inductive Charset := Narrow | Wide.

Inductive Event :=
| EvLoadLibraryEx (cs : Charset) (filename : PyPath) (hFile flags : Z)
| EvEnumResourceNames (cs : Charset) (hmodule kind : Z)
| EvFreeLibrary (hmodule : Z)
| EvFindResource (cs : Charset) (hModule : Z) (lpName : ResName) (lpType : Z)
| EvSizeofResource (hModule hResource : Z)
| EvLoadResource (hModule hResource : Z)
| EvLockResource (hData : Z)
| EvStringAt (ptr size : Z)
| EvFreeResource (hData : Z)
| EvBeginUpdateResource (cs : Charset) (filename : PyPath) (delete_existing : bool)
| EvUpdateResource (cs : Charset) (update_handle kind : Z) (name : ResName)
    (lang : Z)
    (data : option (list Byte.byte)) (size : Z)
| EvEndUpdateResource (cs : Charset) (update_handle : Z) (discard : bool).


(** The character width of the entry point, for the calls that take a file
    name. *)
Definition filename_entry_point (e : Event) : option Charset :=
  match e with
  | EvLoadLibraryEx cs _ _ _ => Some cs
  | EvBeginUpdateResource cs _ _ => Some cs
  | _ => None
  end.

Definition is_FreeLibrary (h : Z) (e : Event) : bool :=
  match e with
  | EvFreeLibrary h' => h' =? h
  | _ => false
  end.


Definition is_begin (e : Event) : bool :=
  match e with
  | EvBeginUpdateResource _ _ _ => true
  | _ => false
  end.

Definition is_stage (e : Event) : bool :=
  match e with
  | EvUpdateResource _ _ _ _ _ _ _ => true
  | _ => false
  end.

Definition is_commit (e : Event) : bool :=
  match e with
  | EvEndUpdateResource _ _ _ => true
  | _ => false
  end.

(** A call of the update session interface: begin, stage or commit. *)
Definition is_update_call (e : Event) : bool :=
  is_begin e || is_stage e || is_commit e.

Definition count_events (p : Event -> bool) (evs : list Event) : nat :=
  length (filter (fun e => p e = true) evs).

(** ** The platform: interpreter constant and kernel32 entry points

    Every entry point maps the state of the operating system to a result and a
    new state; the entry points that exist in a narrow ([...A]) and a wide
    ([...W]) variant take the variant as their first argument.
    [k32_EnumResourceNames] yields the names the system presents to the
    callback, in its order. *)
Class Platform (W : Type) := {
  str_is_not_bytes : bool;
  callback_exceptions_propagate : bool;
  GetLastError : W -> Z;
  k32_LoadLibraryEx : Charset -> PyPath -> Z -> Z -> W -> Foreign Z * W;
  k32_EnumResourceNames : Charset -> Z -> Z -> W -> Foreign (list ResName) * W;
  k32_FreeLibrary : Z -> W -> Foreign Z * W;
  k32_FindResource : Charset -> Z -> ResName -> Z -> W -> Foreign Z * W;
  k32_SizeofResource : Z -> Z -> W -> Foreign Z * W;
  k32_LoadResource : Z -> Z -> W -> Foreign Z * W;
  k32_LockResource : Z -> W -> Foreign Z * W;
  ctypes_string_at : Z -> Z -> W -> Foreign (list Byte.byte) * W;
  k32_FreeResource : Z -> W -> Foreign Z * W;
  k32_BeginUpdateResource : Charset -> PyPath -> bool -> W -> Foreign Z * W;
  k32_UpdateResource :
    Charset -> Z -> Z -> ResName -> Z -> option (list Byte.byte) -> Z -> W ->
    Foreign Z * W;
  k32_EndUpdateResource : Charset -> Z -> bool -> W -> Foreign Z * W
}.

(** ** Computations: state of the system, exceptions, and the calls made *)

Record Run (W A : Type) := mkRun {
  out : Outcome A;
  world : W;
  events : list Event
}.
Arguments mkRun {W A} out world events.
Arguments out {W A} r.
Arguments world {W A} r.
Arguments events {W A} r.

Definition M (W A : Type) : Type := W -> Run W A.

Definition ret {W A} (a : A) : M W A :=
  fun w => mkRun (Returned a) w [].

Definition raise {W A} (e : PyExc) : M W A :=
  fun w => mkRun (Raised e) w [].

Definition bind {W A B} (m : M W A) (k : A -> M W B) : M W B :=
  fun w =>
    let r := m w in
    match out r with
    | Returned a =>
        let r' := k a (world r) in
        mkRun (out r') (world r') (events r ++ events r')
    | Raised e => mkRun (Raised e) (world r) (events r)
    end.

(** Runs [m] and hands its outcome over as a value; never raises. *)
Definition attempt {W A} (m : M W A) : M W (Outcome A) :=
  fun w => let r := m w in mkRun (Returned (out r)) (world r) (events r).

(** Python's [try: body finally: fin]. *)
Definition try_finally {W A B} (body : M W A) (fin : M W B) : M W A :=
  bind (attempt body) (fun o =>
  bind fin (fun _ =>
  match o with
  | Returned a => ret a
  | Raised e => raise e
  end)).

(** One foreign call, recorded in the trace. *)
Definition call {W A} (e : Event) (f : W -> Foreign A * W) : M W A :=
  fun w => let '(r, w') := f w in mkRun (lift_foreign r) w' [e].

Declare Scope prog_scope.
Delimit Scope prog_scope with prog.
Notation "'let!' x ':=' m 'in' k" := (bind m (fun x => k))
  (at level 10, x pattern, m at level 100, k at level 200) : prog_scope.
Local Open Scope prog_scope.

Section Program.
Context {W : Type} `{Platform W}.

(** [raise ctypes.WinError()] *)
Definition raise_WinError {A} : M W A :=
  fun w => mkRun (Raised (WinError (GetLastError w))) w [].

Definition DONT_RESOLVE_DLL_REFERENCES : Z := 1.
Definition LOAD_LIBRARY_AS_DATAFILE : Z := 2.
Definition LOAD_LIBRARY_AS_IMAGE_RESOURCE : Z := 32.

(** The flags of the library load: a passive mapping of the image. *)
Definition load_flags : Z :=
  Z.lor (Z.lor DONT_RESOLVE_DLL_REFERENCES LOAD_LIBRARY_AS_DATAFILE)
        LOAD_LIBRARY_AS_IMAGE_RESOURCE.

(** The entry point chosen from the type of the file name. *)
Definition filename_charset (filename : PyPath) : Charset :=
  if type_is_str filename && str_is_not_bytes then Wide else Narrow.

(** The inner function [callback] of [getResourcesFromDLL]; [result] is the
    list of the enclosing function, which the callback appends to. *)
Definition callback (with_data : bool) (hModule lpType : Z) (lpName : ResName)
    (_lParam : PyValue) (result : list Item) : M W (bool * list Item) :=
  if with_data then
    let! hResource :=
      call (EvFindResource Narrow hModule lpName lpType)
           (k32_FindResource Narrow hModule lpName lpType) in
    let! size :=
      call (EvSizeofResource hModule hResource)
           (k32_SizeofResource hModule hResource) in
    let! hData :=
      call (EvLoadResource hModule hResource)
           (k32_LoadResource hModule hResource) in
    let! result' :=
      try_finally
        (let! ptr := call (EvLockResource hData) (k32_LockResource hData) in
         let! s := call (EvStringAt ptr size) (ctypes_string_at ptr size) in
         ret (result ++ [ItemData lpType lpName s]))
        (call (EvFreeResource hData) (k32_FreeResource hData)) in
    ret (true, result')
  else
    ret (true, result ++ [ItemName lpName]).

(** Modelled from the spec: the enumeration loop of the operating system,
    which is not part of the repository.  The system invokes the callback once
    per matching resource of the requested kind, in directory order, and stops
    when the callback answers false (the callback of this module always
    answers true).  An exception of the callback either
    leaves the foreign call or is dropped by the binding; a dropped exception
    does not end the enumeration, which goes on with the next resource, and
    [result] keeps what was appended before. *)
Fixpoint enumerate (cb : ResName -> list Item -> M W (bool * list Item))
    (names : list ResName) (result : list Item) : M W (bool * list Item) :=
  match names with
  | [] => ret (true, result)
  | name :: rest =>
      let! o := attempt (cb name result) in
      match o with
      | Returned (true, result') => enumerate cb rest result'
      | Returned (false, result') => ret (false, result')
      | Raised e =>
          if callback_exceptions_propagate then raise e
          else enumerate cb rest result
      end
  end.

(** The call [EnumResourceNames(hmodule, kind, callback, lParam)]. *)
Definition EnumResourceNames
    (hmodule resource_kind : Z)
    (cb : Z -> Z -> ResName -> PyValue -> list Item -> M W (bool * list Item))
    (lParam : PyValue) (result : list Item) : M W (bool * list Item) :=
  let! names :=
    call (EvEnumResourceNames Narrow hmodule resource_kind)
         (k32_EnumResourceNames Narrow hmodule resource_kind) in
  enumerate (fun name => cb hmodule resource_kind name lParam) names result.

Definition getResourcesFromDLL (filename : PyPath) (resource_kind : Z)
    (with_data : bool) : M W (list Item) :=
  let cs := filename_charset filename in
  let! hmodule :=
    call (EvLoadLibraryEx cs filename 0 load_flags)
         (k32_LoadLibraryEx cs filename 0 load_flags) in
  if hmodule =? 0 then raise_WinError
  else
    let result := [] in
    let! r := EnumResourceNames hmodule resource_kind (callback with_data)
                PyNone result in
    let result := snd r in
    let! _ := call (EvFreeLibrary hmodule) (k32_FreeLibrary hmodule) in
    ret result.

(** The three helpers of the update session.  Each of them sets the argument
    or result types of its entry point from [ctypes.wintypes] before the
    call; the embedding takes that submodule to be imported, as the first
    statement of [getResourcesFromDLL] does, so that these names are bound. *)
Definition _openFileWindowsResources (filename : PyPath) : M W Z :=
  let cs := filename_charset filename in
  let! update_handle :=
    call (EvBeginUpdateResource cs filename false)
         (k32_BeginUpdateResource cs filename false) in
  if negb (truthy (PyInt update_handle)) then raise_WinError
  else ret update_handle.

Definition _closeFileWindowsResources (update_handle : Z) : M W PyValue :=
  let! r :=
    call (EvEndUpdateResource Narrow update_handle false)
         (k32_EndUpdateResource Narrow update_handle false) in
  if negb (truthy (PyInt r)) then raise_WinError
  else ret PyNone.

Definition _updateResource (update_handle resource_kind : Z)
    (res_name : ResName) (lang : Z) (data : option (list Byte.byte))
    : M W PyValue :=
  let size :=
    match data with
    | None => 0
    | Some d => Z.of_nat (length d)
    end in
  let! r :=
    call (EvUpdateResource Narrow update_handle resource_kind res_name 0 data
            size)
         (k32_UpdateResource Narrow update_handle resource_kind res_name 0 data
            size) in
  if negb (truthy (PyInt r)) then raise_WinError
  else ret PyNone.

(** The [for] loop of [deleteWindowsResources]. *)
Fixpoint delete_loop (update_handle resource_kind : Z)
    (res_names : list ResName) : M W unit :=
  match res_names with
  | [] => ret tt
  | res_name :: rest =>
      let! r := _updateResource update_handle resource_kind res_name 0 None in
      if negb (truthy r) then raise_WinError
      else delete_loop update_handle resource_kind rest
  end.

Definition deleteWindowsResources (filename : PyPath) (resource_kind : Z)
    (res_names : list ResName) : M W PyValue :=
  let! update_handle := _openFileWindowsResources filename in
  let! _ := delete_loop update_handle resource_kind res_names in
  let! _ := _closeFileWindowsResources update_handle in
  ret PyNone.

(** The [for] loop of [copyResourcesFromFileToFile]. *)
Fixpoint copy_loop (update_handle resource_kind : Z) (res_data : list Item)
    : M W unit :=
  match res_data with
  | [] => ret tt
  | ItemData kind res_name data :: rest =>
      if negb (kind =? resource_kind) then raise AssertionError
      else
        let! _ := _updateResource update_handle resource_kind res_name 0
                    (Some data) in
        copy_loop update_handle resource_kind rest
  | ItemName _ :: _ => raise TypeError
  end.

Definition copyResourcesFromFileToFile (source_filename target_filename : PyPath)
    (resource_kind : Z) : M W PyValue :=
  let! res_data := getResourcesFromDLL source_filename resource_kind true in
  match res_data with
  | [] => ret PyNone
  | _ :: _ =>
      let! update_handle := _openFileWindowsResources target_filename in
      let! _ := copy_loop update_handle resource_kind res_data in
      let! _ := _closeFileWindowsResources update_handle in
      ret PyNone
  end.

Definition addResourceToFile (target_filename : PyPath)
    (data : option (list Byte.byte)) (resource_kind : Z) (res_name : ResName)
    : M W PyValue :=
  let! update_handle := _openFileWindowsResources target_filename in
  let! _ := _updateResource update_handle resource_kind res_name 0 data in
  let! _ := _closeFileWindowsResources update_handle in
  ret PyNone.

End Program.

(** ** Reasoning about computations *)

Section Logic.
Context {W : Type}.

(** Every call that [m] makes satisfies [P]. *)
Definition emits {A} (P : Event -> Prop) (m : M W A) : Prop :=
  forall w, Forall P (events (m w)).

(** [m] returns only values in [Q] and raises only exceptions in [E]. *)
Definition yields {A} (Q : A -> Prop) (E : PyExc -> Prop) (m : M W A) : Prop :=
  forall w,
    match out (m w) with
    | Returned a => Q a
    | Raised e => E e
    end.

(** [m] leaves the observation [obs] of the system as it was. *)
Definition keeps {A D} (obs : W -> D) (m : M W A) : Prop :=
  forall w, obs (world (m w)) = obs w.

(** [r] with the calls [evs] made before it. *)
Definition after {A} (evs : list Event) (r : Run W A) : Run W A :=
  mkRun (out r) (world r) (evs ++ events r).

Lemma bind_run {A B} (m : M W A) (k : A -> M W B) w :
  bind m k w =
  match out (m w) with
  | Returned a => after (events (m w)) (k a (world (m w)))
  | Raised e => mkRun (Raised e) (world (m w)) (events (m w))
  end.
Proof. unfold bind. now destruct (out (m w)). Qed.

Lemma call_ret {A} e (f : W -> Foreign A * W) w a w' :
  f w = (FRet a, w') -> call e f w = mkRun (Returned a) w' [e].
Proof. intros Hf. unfold call. now rewrite Hf. Qed.

Lemma call_raise {A} e (f : W -> Foreign A * W) w tag w' :
  f w = (FRaise tag, w') ->
  call e f w = mkRun (Raised (CtypesError tag)) w' [e].
Proof. intros Hf. unfold call. now rewrite Hf. Qed.

Lemma bind_call_ret {A B} e (f : W -> Foreign A * W) (k : A -> M W B) w a w' :
  f w = (FRet a, w') -> bind (call e f) k w = after [e] (k a w').
Proof. intros Hf. rewrite bind_run, (call_ret e f w a w' Hf). reflexivity. Qed.

Lemma bind_call_raise {A B} e (f : W -> Foreign A * W) (k : A -> M W B)
    w tag w' :
  f w = (FRaise tag, w') ->
  bind (call e f) k w = mkRun (Raised (CtypesError tag)) w' [e].
Proof. intros Hf. rewrite bind_run, (call_raise e f w tag w' Hf). reflexivity. Qed.

Lemma try_finally_run {A B} (body : M W A) (fin : M W B) w :
  try_finally body fin w =
  mkRun match out (fin (world (body w))) with
        | Returned _ => out (body w)
        | Raised e => Raised e
        end
        (world (fin (world (body w))))
        (events (body w) ++ events (fin (world (body w)))).
Proof.
  unfold try_finally. rewrite bind_run. unfold attempt at 1 2 3.
  cbn [out world events]. rewrite bind_run.
  destruct (out (fin (world (body w)))) as [b|e];
    [destruct (out (body w)) |];
    unfold after, ret, raise; cbn [out world events];
    rewrite ?app_nil_r; reflexivity.
Qed.

Lemma bind_returned {A B} (m : M W A) (k : A -> M W B) w a :
  out (m w) = Returned a ->
  bind m k w =
  mkRun (out (k a (world (m w)))) (world (k a (world (m w))))
        (events (m w) ++ events (k a (world (m w)))).
Proof. intros Hm. unfold bind. now rewrite Hm. Qed.

Lemma bind_raised {A B} (m : M W A) (k : A -> M W B) w e :
  out (m w) = Raised e ->
  bind m k w = mkRun (Raised e) (world (m w)) (events (m w)).
Proof. intros Hm. unfold bind. now rewrite Hm. Qed.

Lemma call_run {A} (e : Event) (f : W -> Foreign A * W) w :
  call e f w = mkRun (lift_foreign (fst (f w))) (snd (f w)) [e].
Proof. unfold call. now destruct (f w). Qed.

Lemma emits_ret {A} P (a : A) : emits P (ret a).
Proof. intros w. constructor. Qed.

Lemma emits_raise {A} P e : emits P (@raise W A e).
Proof. intros w. constructor. Qed.

Lemma emits_call {A} (P : Event -> Prop) e (f : W -> Foreign A * W) :
  P e -> emits P (call e f).
Proof. intros He w. rewrite call_run. simpl. now repeat constructor. Qed.

Lemma emits_bind {A B} P (m : M W A) (k : A -> M W B) :
  emits P m -> (forall a, emits P (k a)) -> emits P (bind m k).
Proof.
  intros Hm Hk w. unfold bind.
  destruct (out (m w)) as [a|e] eqn:Ho; simpl.
  - apply Forall_app. split; [apply Hm | apply Hk].
  - apply Hm.
Qed.

Lemma emits_attempt {A} P (m : M W A) : emits P m -> emits P (attempt m).
Proof. intros Hm w. apply Hm. Qed.

Lemma emits_try_finally {A B} P (body : M W A) (fin : M W B) :
  emits P body -> emits P fin -> emits P (try_finally body fin).
Proof.
  intros Hb Hf. unfold try_finally.
  apply emits_bind; [now apply emits_attempt | intros o].
  apply emits_bind; [assumption | intros _].
  destruct o; [apply emits_ret | apply emits_raise].
Qed.

Lemma yields_ret {A} (Q : A -> Prop) E a : Q a -> yields Q E (ret a).
Proof. intros Ha w. exact Ha. Qed.

Lemma yields_raise {A} (Q : A -> Prop) (E : PyExc -> Prop) e :
  E e -> yields Q E (@raise W A e).
Proof. intros He w. exact He. Qed.

Lemma yields_bind {A B} (Q : A -> Prop) (R : B -> Prop) E
    (m : M W A) (k : A -> M W B) :
  yields Q E m -> (forall a, Q a -> yields R E (k a)) -> yields R E (bind m k).
Proof.
  intros Hm Hk w. specialize (Hm w). unfold bind.
  destruct (out (m w)) as [a|e]; simpl.
  - apply (Hk a Hm).
  - exact Hm.
Qed.

Lemma yields_weaken {A} (Q Q' : A -> Prop) (E E' : PyExc -> Prop) (m : M W A) :
  yields Q E m -> (forall a, Q a -> Q' a) -> (forall e, E e -> E' e) ->
  yields Q' E' m.
Proof.
  intros Hm HQ HE w. specialize (Hm w).
  destruct (out (m w)); auto.
Qed.

Lemma yields_attempt {A} (Q : A -> Prop) (E E' : PyExc -> Prop) (m : M W A) :
  yields Q E m ->
  yields (fun o => match o with Returned a => Q a | Raised e => E e end) E'
         (attempt m).
Proof. intros Hm w. apply Hm. Qed.

Lemma yields_try_finally {A B} (Q : A -> Prop) (E : PyExc -> Prop)
    (body : M W A) (fin : M W B) :
  yields Q E body -> yields (fun _ => True) E fin ->
  yields Q E (try_finally body fin).
Proof.
  intros Hb Hf. unfold try_finally.
  eapply yields_bind; [apply (yields_attempt Q E E body Hb) | intros o Ho].
  eapply yields_bind; [apply Hf | intros _ _].
  destruct o; [now apply yields_ret | now apply yields_raise].
Qed.

Lemma keeps_ret {A D} (obs : W -> D) (a : A) : keeps obs (ret a).
Proof. intros w. reflexivity. Qed.

Lemma keeps_raise {A D} (obs : W -> D) e : keeps obs (@raise W A e).
Proof. intros w. reflexivity. Qed.

Lemma keeps_call {A D} (obs : W -> D) e (f : W -> Foreign A * W) :
  (forall w, obs (snd (f w)) = obs w) -> keeps obs (call e f).
Proof. intros Hf w. rewrite call_run. apply Hf. Qed.

Lemma keeps_bind {A B D} (obs : W -> D) (m : M W A) (k : A -> M W B) :
  keeps obs m -> (forall a, keeps obs (k a)) -> keeps obs (bind m k).
Proof.
  intros Hm Hk w. unfold bind.
  destruct (out (m w)) as [a|e]; simpl.
  - rewrite Hk. apply Hm.
  - apply Hm.
Qed.

Lemma keeps_attempt {A D} (obs : W -> D) (m : M W A) :
  keeps obs m -> keeps obs (attempt m).
Proof. intros Hm w. apply Hm. Qed.

Lemma keeps_try_finally {A B D} (obs : W -> D) (body : M W A) (fin : M W B) :
  keeps obs body -> keeps obs fin -> keeps obs (try_finally body fin).
Proof.
  intros Hb Hf. unfold try_finally.
  apply keeps_bind; [now apply keeps_attempt | intros o].
  apply keeps_bind; [assumption | intros _].
  destruct o; [apply keeps_ret | apply keeps_raise].
Qed.

End Logic.

(** The exceptions that come from the operating system or the binding. *)
Definition os_error (e : PyExc) : Prop :=
  match e with
  | WinError _ | CtypesError _ => True
  | AssertionError | TypeError => False
  end.

(** The calls that only read: loading, enumerating, extracting, releasing. *)
Definition is_query (e : Event) : Prop := is_update_call e = false.


(** The calls of the enumeration and extraction path, as the code issues them:
    identifiers through the narrow entry points only. *)
Definition extraction_call (e : Event) : Prop :=
  match e with
  | EvLoadLibraryEx _ _ _ _ | EvFreeLibrary _ | EvSizeofResource _ _
  | EvLoadResource _ _ | EvLockResource _ | EvStringAt _ _
  | EvFreeResource _ => True
  | EvEnumResourceNames cs _ _ | EvFindResource cs _ _ _ => cs = Narrow
  | _ => False
  end.


Lemma extraction_call_is_query e : extraction_call e -> is_query e.
Proof. destruct e; simpl; intros; try reflexivity; contradiction. Qed.



Definition item_of_kind (kind : Z) (it : Item) : Prop :=
  match it with
  | ItemData k _ _ => k = kind
  | ItemName _ => False
  end.

Definition returned {A} (o : Outcome A) : bool :=
  match o with
  | Returned _ => true
  | Raised _ => false
  end.

Definition is_AssertionError {A} (o : Outcome A) : bool :=
  match o with
  | Raised AssertionError => true
  | _ => false
  end.

(** ** Facts about the operations, for every platform *)

Section ProgramFacts.
Context {W : Type} `{Platform W}.


Lemma emits_raise_WinError {A} P : emits P (@raise_WinError W _ A).
Proof. intros w. constructor. Qed.

Lemma yields_raise_WinError {A} (Q : A -> Prop) :
  yields Q os_error (@raise_WinError W _ A).
Proof. intros w. exact I. Qed.

Lemma keeps_raise_WinError {A D} (obs : W -> D) :
  keeps obs (@raise_WinError W _ A).
Proof. intros w. reflexivity. Qed.

Lemma yields_call {A} e (f : W -> Foreign A * W) :
  yields (fun _ => True) os_error (call e f).
Proof. intros w. rewrite call_run. simpl. now destruct (fst (f w)). Qed.

Ltac emits_steps :=
  repeat match goal with
    | |- emits _ (ret _) => apply emits_ret
    | |- emits _ (raise _) => apply emits_raise
    | |- emits _ raise_WinError => apply emits_raise_WinError
    | |- emits _ (call _ _) => apply emits_call; simpl; auto
    | |- emits _ (try_finally _ _) => apply emits_try_finally
    | |- emits _ (attempt _) => apply emits_attempt
    | |- emits _ (bind _ _) => apply emits_bind; [| intros ?]
    | |- emits _ (if ?b then _ else _) => destruct b
    end.

Lemma callback_emits with_data hModule lpType lpName lParam result :
  emits extraction_call (callback with_data hModule lpType lpName lParam result).
Proof. unfold callback. emits_steps. Qed.

Lemma enumerate_emits P cb names result :
  (forall name res, emits P (cb name res)) ->
  emits P (enumerate cb names result).
Proof.
  intros Hcb. revert result.
  induction names as [|name rest IH]; intros result; simpl.
  - apply emits_ret.
  - apply emits_bind; [apply emits_attempt, Hcb | intros o].
    destruct o as [[[|] res']|e]; [apply IH | apply emits_ret |].
    destruct callback_exceptions_propagate; [apply emits_raise | apply IH].
Qed.

Lemma getResourcesFromDLL_emits filename resource_kind with_data :
  emits extraction_call (getResourcesFromDLL filename resource_kind with_data).
Proof.
  unfold getResourcesFromDLL, EnumResourceNames.
  apply emits_bind; [apply emits_call; exact I | intros hmodule].
  destruct (hmodule =? 0); [apply emits_raise_WinError |].
  apply emits_bind.
  - apply emits_bind; [apply emits_call; reflexivity | intros names].
    apply enumerate_emits. intros. apply callback_emits.
  - intros r. emits_steps.
Qed.






End ProgramFacts.

Section Outcomes.
Context {W : Type} `{Platform W}.

Lemma callback_yields with_data hModule lpType lpName lParam result :
  with_data = true ->
  Forall (item_of_kind lpType) result ->
  yields (fun r => Forall (item_of_kind lpType) (snd r)) os_error
         (callback with_data hModule lpType lpName lParam result).
Proof.
  intros -> Hres. unfold callback.
  eapply yields_bind; [apply yields_call | intros hResource _].
  eapply yields_bind; [apply yields_call | intros size _].
  eapply yields_bind; [apply yields_call | intros hData _].
  eapply yields_bind with (Q := Forall (item_of_kind lpType)).
  - apply yields_try_finally; [| apply yields_call].
    eapply yields_bind; [apply yields_call | intros ptr _].
    eapply yields_bind; [apply yields_call | intros s _].
    apply yields_ret. apply Forall_app. split; [exact Hres |].
    repeat constructor.
  - intros result' Hres'. now apply yields_ret.
Qed.

Lemma enumerate_yields (Inv : list Item -> Prop) E cb names result :
  (forall name res, Inv res -> yields (fun r => Inv (snd r)) E (cb name res)) ->
  Inv result ->
  yields (fun r => Inv (snd r)) E (enumerate cb names result).
Proof.
  intros Hcb. revert result.
  induction names as [|name rest IH]; intros result Hres; simpl.
  - now apply yields_ret.
  - eapply yields_bind.
    + apply (yields_attempt _ E E _ (Hcb name result Hres)).
    + intros [[[|] res']|e] Ho; simpl in Ho.
      * now apply IH.
      * now apply yields_ret.
      * destruct callback_exceptions_propagate;
          [now apply yields_raise | now apply IH].
Qed.

Lemma getResourcesFromDLL_yields filename resource_kind :
  yields (Forall (item_of_kind resource_kind)) os_error
         (getResourcesFromDLL filename resource_kind true).
Proof.
  unfold getResourcesFromDLL, EnumResourceNames.
  eapply yields_bind; [apply yields_call | intros hmodule _].
  destruct (hmodule =? 0); [apply yields_raise_WinError |].
  eapply yields_bind
    with (Q := fun r => Forall (item_of_kind resource_kind) (snd r)).
  - eapply yields_bind; [apply yields_call | intros names _].
    apply (enumerate_yields (Forall (item_of_kind resource_kind))).
    + intros name res Hres. now apply callback_yields.
    + constructor.
  - intros r Hr.
    eapply yields_bind; [apply yields_call | intros _ _].
    now apply yields_ret.
Qed.

Lemma _openFileWindowsResources_yields filename :
  yields (fun _ => True) os_error (_openFileWindowsResources filename).
Proof.
  unfold _openFileWindowsResources.
  eapply yields_bind; [apply yields_call | intros h _].
  destruct (negb (truthy (PyInt h)));
    [apply yields_raise_WinError | now apply yields_ret].
Qed.

Lemma _closeFileWindowsResources_yields update_handle :
  yields (fun _ => True) os_error (_closeFileWindowsResources update_handle).
Proof.
  unfold _closeFileWindowsResources.
  eapply yields_bind; [apply yields_call | intros r _].
  destruct (negb (truthy (PyInt r)));
    [apply yields_raise_WinError | now apply yields_ret].
Qed.

(** [_updateResource] has no [return] statement: when it does not raise, its
    value is [None]. *)
Lemma _updateResource_yields update_handle resource_kind res_name lang data :
  yields (fun v => v = PyNone) os_error
         (_updateResource update_handle resource_kind res_name lang data).
Proof.
  unfold _updateResource.
  eapply yields_bind; [apply yields_call | intros r _].
  destruct (negb (truthy (PyInt r)));
    [apply yields_raise_WinError | now apply yields_ret].
Qed.

Lemma copy_loop_yields update_handle resource_kind res_data :
  Forall (item_of_kind resource_kind) res_data ->
  yields (fun _ => True) os_error
         (copy_loop update_handle resource_kind res_data).
Proof.
  induction 1 as [|[name|kind name data] rest Hit Hrest IH]; simpl.
  - now apply yields_ret.
  - destruct Hit.
  - simpl in Hit. subst kind. rewrite Z.eqb_refl. simpl.
    eapply yields_bind; [apply _updateResource_yields | intros _ _; exact IH].
Qed.

Lemma copyResourcesFromFileToFile_yields source_filename target_filename
    resource_kind :
  yields (fun _ => True) os_error
         (copyResourcesFromFileToFile source_filename target_filename
            resource_kind).
Proof.
  unfold copyResourcesFromFileToFile.
  eapply yields_bind; [apply getResourcesFromDLL_yields | intros res_data Hres].
  destruct res_data as [|it rest]; [now apply yields_ret |].
  eapply yields_bind;
    [apply _openFileWindowsResources_yields | intros update_handle _].
  eapply yields_bind; [now apply copy_loop_yields | intros _ _].
  eapply yields_bind; [apply _closeFileWindowsResources_yields | intros _ _].
  now apply yields_ret.
Qed.

End Outcomes.

(** ** A reference platform

    Modelled from the spec: the resource subsystem of the operating system
    (kernel32 and the ctypes binding), which is not part of the repository.
    Files hold a resource directory; a library handle maps the directory of a
    file read-only; an update session collects staged operations and applies
    them to the file at commit, an absent payload meaning deletion; at most one
    session is open against a file.  Resources are named by integer
    identifiers or by text; the enumeration hands each name to the callback
    as the callback type of the module declares it, a [LONG]. *)
Module Reference.

Record Entry := mkEntry {
  e_kind : Z;
  e_name : ResName;
  e_lang : Z;
  e_data : list Byte.byte
}.

Record Staged := mkStaged {
  s_kind : Z;
  s_name : ResName;
  s_lang : Z;
  s_data : option (list Byte.byte)
}.

Record Session := mkSession {
  u_path : string;
  u_base : list Entry;
  u_staged : list Staged
}.

Record World := mkWorld {
  disk : gmap string (list Entry);
  libs : gmap Z (list Entry);
  mapped : gmap Z (list Byte.byte);
  sessions : gmap Z Session;
  locked : gset string;
  next_handle : Z;
  last_error : Z
}.

Definition ERROR_FILE_NOT_FOUND : Z := 2.
Definition ERROR_INVALID_HANDLE : Z := 6.
Definition ERROR_SHARING_VIOLATION : Z := 32.
Definition ERROR_RESOURCE_TYPE_NOT_FOUND : Z := 1813.
Definition ERROR_RESOURCE_NAME_NOT_FOUND : Z := 1814.

Definition set_last_error (code : Z) (w : World) : World :=
  mkWorld (disk w) (libs w) (mapped w) (sessions w) (locked w)
          (next_handle w) code.

(** A handle never handed out before, and never null. *)
Definition fresh (w : World) : Z := Z.succ (Z.abs (next_handle w)).

(** An integer argument passed without a declared type must fit a C [long] or
    [unsigned long]; otherwise the binding raises. *)
Definition int_argument_ok (n : Z) : bool :=
  (- 2 ^ 31 <=? n) && (n <? 2 ^ 32).

(** Modelled from the spec: where the characters of a text name lie in a
    mapped image.  The spec does not say; the model takes, for each name, an
    address that fits a [LONG] and lies outside the range of the integer
    identifiers (below 65536). *)
Definition name_address (s : string) : Z :=
  65536 + Z.pos (encode s) mod 2 ^ 30.

(** The value the enumeration callback receives for a name.  The callback type
    is declared with [LONG] parameters, so an identifier arrives as itself and
    a text name as the integer its address converts to. *)
Definition as_LONG (name : ResName) : Z :=
  match name with
  | IntId n => n
  | TextName s => name_address s
  end.

(** The integer identifiers a resource or a resource kind can carry. *)
Definition resource_id (n : Z) : bool := (0 <? n) && (n <? 65536).

Definition identifier (name : ResName) : bool :=
  match name with
  | IntId n => resource_id n
  | TextName _ => false
  end.

Definition same_name (kind : Z) (name : ResName) (e : Entry) : bool :=
  (e_kind e =? kind) && bool_decide (e_name e = name).

Definition same_key (kind : Z) (name : ResName) (lang : Z) (e : Entry) : bool :=
  same_name kind name e && (e_lang e =? lang).

(** Resolution of (kind, name): the neutral language first, then any. *)
Definition find_entry (kind : Z) (name : ResName) (dir : list Entry)
    : option Entry :=
  match List.find (same_key kind name 0) dir with
  | Some e => Some e
  | None => List.find (same_name kind name) dir
  end.

Definition names_of_kind (kind : Z) (dir : list Entry) : list ResName :=
  remove_dups (map e_name (List.filter (fun e => e_kind e =? kind) dir)).

(** Every resource of the kind in the directory has an integer identifier. *)
Definition integer_named (kind : Z) (dir : list Entry) : bool :=
  forallb (fun e => negb (e_kind e =? kind) || identifier (e_name e)) dir.

Definition apply_staged (dir : list Entry) (s : Staged) : list Entry :=
  let others :=
    List.filter
      (fun e => negb (same_key (s_kind s) (s_name s) (s_lang s) e)) dir in
  match s_data s with
  | Some d => others ++ [mkEntry (s_kind s) (s_name s) (s_lang s) d]
  | None => others
  end.

Definition commit (base : list Entry) (staged : list Staged) : list Entry :=
  fold_left apply_staged staged base.

Definition ref_LoadLibraryEx (cs : Charset) (filename : PyPath)
    (hFile flags : Z) (w : World) : Foreign Z * World :=
  match disk w !! path_text filename with
  | Some dir =>
      let h := fresh w in
      (FRet h,
       mkWorld (disk w) (<[h := dir]> (libs w)) (mapped w) (sessions w)
               (locked w) h (last_error w))
  | None => (FRet 0, set_last_error ERROR_FILE_NOT_FOUND w)
  end.

Definition ref_EnumResourceNames (cs : Charset) (hmodule kind : Z) (w : World)
    : Foreign (list ResName) * World :=
  if negb (int_argument_ok kind) then (FRaise 1, w)
  else
    match libs w !! hmodule with
    | Some dir =>
        match names_of_kind kind dir with
        | [] => (FRet [], set_last_error ERROR_RESOURCE_TYPE_NOT_FOUND w)
        | names => (FRet (map (fun name => IntId (as_LONG name)) names), w)
        end
    | None => (FRet [], set_last_error ERROR_INVALID_HANDLE w)
    end.

Definition ref_FreeLibrary (hmodule : Z) (w : World) : Foreign Z * World :=
  match libs w !! hmodule with
  | Some _ =>
      (FRet 1,
       mkWorld (disk w) (delete hmodule (libs w)) (mapped w) (sessions w)
               (locked w) (next_handle w) (last_error w))
  | None => (FRet 0, set_last_error ERROR_INVALID_HANDLE w)
  end.

(** An integer name is looked up among the integer identifiers of the
    directory; the integer a text name arrived as in the callback is none of
    them. *)
Definition ref_FindResource (cs : Charset) (hModule : Z) (name : ResName)
    (kind : Z) (w : World) : Foreign Z * World :=
  match libs w !! hModule with
  | Some dir =>
      match find_entry kind name dir with
      | Some e =>
          let h := fresh w in
          (FRet h,
           mkWorld (disk w) (libs w) (<[h := e_data e]> (mapped w))
                   (sessions w) (locked w) h (last_error w))
      | None => (FRet 0, set_last_error ERROR_RESOURCE_NAME_NOT_FOUND w)
      end
  | None => (FRet 0, set_last_error ERROR_INVALID_HANDLE w)
  end.

(** The block a resource handle stands for; the null handle stands for
    none. *)
Definition block (hResource : Z) (w : World) : option (list Byte.byte) :=
  if hResource =? 0 then None else mapped w !! hResource.

Definition ref_SizeofResource (hModule hResource : Z) (w : World)
    : Foreign Z * World :=
  match block hResource w with
  | Some d => (FRet (Z.of_nat (length d)), w)
  | None => (FRet 0, set_last_error ERROR_INVALID_HANDLE w)
  end.

Definition ref_LoadResource (hModule hResource : Z) (w : World)
    : Foreign Z * World :=
  match block hResource w with
  | Some _ => (FRet hResource, w)
  | None => (FRet 0, set_last_error ERROR_INVALID_HANDLE w)
  end.

Definition ref_LockResource (hData : Z) (w : World) : Foreign Z * World :=
  match block hData w with
  | Some _ => (FRet hData, w)
  | None => (FRet 0, w)
  end.

(** [ctypes.string_at(ptr, size)]: [size] bytes read at [ptr]; reading outside
    a mapped block is an access violation, which the binding raises. *)
Definition ref_string_at (ptr size : Z) (w : World)
    : Foreign (list Byte.byte) * World :=
  if size =? 0 then (FRet [], w)
  else
    match mapped w !! ptr with
    | Some d =>
        if (0 <? size) && (size <=? Z.of_nat (length d))
        then (FRet (firstn (Z.to_nat size) d), w)
        else (FRaise 2, w)
    | None => (FRaise 2, w)
    end.

Definition ref_FreeResource (hData : Z) (w : World) : Foreign Z * World :=
  (FRet 0,
   mkWorld (disk w) (libs w) (delete hData (mapped w)) (sessions w)
           (locked w) (next_handle w) (last_error w)).

Definition ref_BeginUpdateResource (cs : Charset) (filename : PyPath)
    (delete_existing : bool) (w : World) : Foreign Z * World :=
  let path := path_text filename in
  match disk w !! path with
  | Some dir =>
      if bool_decide (path ∈ locked w)
      then (FRet 0, set_last_error ERROR_SHARING_VIOLATION w)
      else
        let h := fresh w in
        let base := if delete_existing then [] else dir in
        (FRet h,
         mkWorld (disk w) (libs w) (mapped w)
                 (<[h := mkSession path base []]> (sessions w))
                 ({[path]} ∪ locked w) h (last_error w))
  | None => (FRet 0, set_last_error ERROR_FILE_NOT_FOUND w)
  end.

(** The [size] bytes the system reads at the payload: the payload itself when
    [size] is its length, its first bytes when smaller, and the payload
    followed by the zero bytes behind it when larger. *)
Definition read_payload (size : Z) (d : list Byte.byte) : list Byte.byte :=
  firstn (Z.to_nat size)
         (d ++ repeat Byte.x00 (Z.to_nat size - length d)).

Definition ref_UpdateResource (cs : Charset) (update_handle kind : Z)
    (name : ResName) (lang : Z) (data : option (list Byte.byte)) (size : Z)
    (w : World) : Foreign Z * World :=
  match sessions w !! update_handle with
  | Some s =>
      let op := mkStaged kind name lang (option_map (read_payload size) data) in
      (FRet 1,
       mkWorld (disk w) (libs w) (mapped w)
               (<[update_handle :=
                    mkSession (u_path s) (u_base s) (u_staged s ++ [op])]>
                  (sessions w))
               (locked w) (next_handle w) (last_error w))
  | None => (FRet 0, set_last_error ERROR_INVALID_HANDLE w)
  end.

Definition ref_EndUpdateResource (cs : Charset) (update_handle : Z)
    (discard : bool) (w : World) : Foreign Z * World :=
  match sessions w !! update_handle with
  | Some s =>
      let disk' :=
        if discard then disk w
        else <[u_path s := commit (u_base s) (u_staged s)]> (disk w) in
      (FRet 1,
       mkWorld disk' (libs w) (mapped w) (delete update_handle (sessions w))
               (locked w ∖ {[u_path s]}) (next_handle w) (last_error w))
  | None => (FRet 0, set_last_error ERROR_INVALID_HANDLE w)
  end.

(** The platform, for either Python major version and either treatment of an
    exception raised inside the enumeration callback. *)
Definition platform (py3 propagate : bool) : Platform World := {|
  str_is_not_bytes := py3;
  callback_exceptions_propagate := propagate;
  GetLastError := last_error;
  k32_LoadLibraryEx := ref_LoadLibraryEx;
  k32_EnumResourceNames := ref_EnumResourceNames;
  k32_FreeLibrary := ref_FreeLibrary;
  k32_FindResource := ref_FindResource;
  k32_SizeofResource := ref_SizeofResource;
  k32_LoadResource := ref_LoadResource;
  k32_LockResource := ref_LockResource;
  ctypes_string_at := ref_string_at;
  k32_FreeResource := ref_FreeResource;
  k32_BeginUpdateResource := ref_BeginUpdateResource;
  k32_UpdateResource := ref_UpdateResource;
  k32_EndUpdateResource := ref_EndUpdateResource
|}.

(** Python 3 with the ctypes treatment of callback exceptions (dropped). *)
Definition cpython3 : Platform World := platform true false.

(** A system with one binary, [app.exe], holding a manifest with id 1 and an
    icon with id 7. *)
Definition manifest_bytes : list Byte.byte := [Byte.x3c; Byte.x61; Byte.x2f; Byte.x3e].
Definition icon_bytes : list Byte.byte := [Byte.x00; Byte.x01].

Definition app_directory : list Entry :=
  [mkEntry RT_MANIFEST (IntId 1) 0 manifest_bytes;
   mkEntry RT_ICON (IntId 7) 0 icon_bytes].

Definition sample_world : World :=
  mkWorld {["app.exe"%string := app_directory;
            "empty.dll"%string := []]} ∅ ∅ ∅ ∅ 0 0.

(** The states the sample system goes through: [app.exe] mapped as a library,
    then its manifest resolved; and [app.exe] opened for update, then the
    deletion of its manifest staged. *)
Definition loaded_world : World :=
  snd (ref_LoadLibraryEx Wide (StrPath "app.exe") 0 35 sample_world).


Definition session_world : World :=
  snd (ref_BeginUpdateResource Wide (StrPath "app.exe") false sample_world).

Definition staged_world : World :=
  snd (ref_UpdateResource Narrow 1 RT_MANIFEST (IntId 1) 0 None 0
         session_world).

End Reference.

(** ** Read-only queries

    The enumeration and extraction entry points do not write to files: for an
    observation [files] of the file contents held by the system, each of them
    leaves [files] as it was. *)
Class ReadOnlyQueries {W D : Type} `{Platform W} (files : W -> D) : Prop := {
  LoadLibraryEx_files : forall cs fn hFile flags w,
    files (snd (k32_LoadLibraryEx cs fn hFile flags w)) = files w;
  EnumResourceNames_files : forall cs h kind w,
    files (snd (k32_EnumResourceNames cs h kind w)) = files w;
  FreeLibrary_files : forall h w,
    files (snd (k32_FreeLibrary h w)) = files w;
  FindResource_files : forall cs h name kind w,
    files (snd (k32_FindResource cs h name kind w)) = files w;
  SizeofResource_files : forall h r w,
    files (snd (k32_SizeofResource h r w)) = files w;
  LoadResource_files : forall h r w,
    files (snd (k32_LoadResource h r w)) = files w;
  LockResource_files : forall h w,
    files (snd (k32_LockResource h w)) = files w;
  string_at_files : forall ptr size w,
    files (snd (ctypes_string_at ptr size w)) = files w;
  FreeResource_files : forall h w,
    files (snd (k32_FreeResource h w)) = files w
}.

Section Frame.
Context {W D : Type} `{Platform W} (files : W -> D) `{!ReadOnlyQueries files}.

Lemma callback_keeps with_data hModule lpType lpName lParam result :
  keeps files (callback with_data hModule lpType lpName lParam result).
Proof.
  unfold callback. destruct with_data; [| apply keeps_ret].
  apply keeps_bind; [apply keeps_call, FindResource_files | intros hResource].
  apply keeps_bind; [apply keeps_call, SizeofResource_files | intros size].
  apply keeps_bind; [apply keeps_call, LoadResource_files | intros hData].
  apply keeps_bind; [| intros; apply keeps_ret].
  apply keeps_try_finally; [| apply keeps_call, FreeResource_files].
  apply keeps_bind; [apply keeps_call, LockResource_files | intros ptr].
  apply keeps_bind; [apply keeps_call, string_at_files | intros s].
  apply keeps_ret.
Qed.

Lemma enumerate_keeps cb names result :
  (forall name res, keeps files (cb name res)) ->
  keeps files (enumerate cb names result).
Proof.
  intros Hcb. revert result.
  induction names as [|name rest IH]; intros result; simpl.
  - apply keeps_ret.
  - apply keeps_bind; [apply keeps_attempt, Hcb | intros o].
    destruct o as [[[|] res']|e]; [apply IH | apply keeps_ret |].
    destruct callback_exceptions_propagate; [apply keeps_raise | apply IH].
Qed.

Lemma getResourcesFromDLL_keeps filename resource_kind with_data :
  keeps files (getResourcesFromDLL filename resource_kind with_data).
Proof.
  unfold getResourcesFromDLL, EnumResourceNames.
  apply keeps_bind; [apply keeps_call, LoadLibraryEx_files | intros hmodule].
  destruct (hmodule =? 0); [apply keeps_raise_WinError |].
  apply keeps_bind.
  - apply keeps_bind;
      [apply keeps_call, EnumResourceNames_files | intros names].
    apply enumerate_keeps. intros. apply callback_keeps.
  - intros r.
    apply keeps_bind; [apply keeps_call, FreeLibrary_files | intros _].
    apply keeps_ret.
Qed.

End Frame.

Section Sessions.
Context {W : Type} `{Platform W}.

(** The source holds no resource of the kind: whenever it can be loaded, the
    system presents no name of that kind to the callback. *)
Definition no_resources_of_kind (source_filename : PyPath) (resource_kind : Z)
    (w : W) : Prop :=
  forall hmodule w1,
    k32_LoadLibraryEx (filename_charset source_filename) source_filename 0
                      load_flags w = (FRet hmodule, w1) ->
    hmodule <> 0 ->
    exists w2,
      k32_EnumResourceNames Narrow hmodule resource_kind w1 = (FRet [], w2).




(** Without a non-empty enumeration result, the copy is the enumeration. *)
Lemma copy_without_resources source_filename target_filename resource_kind w :
  let g := getResourcesFromDLL source_filename resource_kind true w in
  out g = Returned [] \/ returned (out g) = false ->
  let r := copyResourcesFromFileToFile source_filename target_filename
             resource_kind w in
  events r = events g /\ world r = world g.
Proof.
  intros g Hg r. subst r. unfold copyResourcesFromFileToFile.
  fold g. destruct Hg as [Hg|Hg].
  - rewrite (bind_returned _ _ _ _ Hg). simpl. now rewrite app_nil_r.
  - destruct (out g) as [a|e] eqn:Ho; [discriminate |].
    now rewrite (bind_raised _ _ _ _ Ho).
Qed.

Lemma no_resources_enumeration source_filename resource_kind with_data w :
  no_resources_of_kind source_filename resource_kind w ->
  let g := getResourcesFromDLL source_filename resource_kind with_data w in
  out g = Returned [] \/ returned (out g) = false.
Proof.
  intros Hno g. subst g.
  unfold getResourcesFromDLL, EnumResourceNames, bind, call. simpl.
  destruct (k32_LoadLibraryEx _ source_filename 0 load_flags w)
    as [[hmodule|tag] w1] eqn:Hload; simpl; [| now right].
  destruct (hmodule =? 0) eqn:Hnull; [now right |].
  apply Z.eqb_neq in Hnull.
  destruct (Hno hmodule w1 Hload Hnull) as [w2 Henum].
  rewrite Henum. simpl.
  destruct (k32_FreeLibrary hmodule w2) as [[r|tag] w3]; simpl;
    [now left | now right].
Qed.

End Sessions.

(** ** Runs of the operations, call by call *)

Section Runs.
Context {W : Type} `{Platform W}.

Lemma events_call {A} e (f : W -> Foreign A * W) w : events (call e f w) = [e].
Proof. now rewrite call_run. Qed.

Lemma events_bind {A B} (m : M W A) (k : A -> M W B) w :
  events (bind m k w) =
  events (m w) ++
  match out (m w) with
  | Returned a => events (k a (world (m w)))
  | Raised _ => []
  end.
Proof.
  rewrite bind_run. destruct (out (m w)); cbn [after events];
    now rewrite ?app_nil_r.
Qed.

Lemma count_events_none p evs :
  Forall (fun e => p e = false) evs -> count_events p evs = 0%nat.
Proof.
  unfold count_events. induction 1 as [|e evs He _ IH]; [reflexivity |].
  rewrite filter_cons.
  destruct (decide (p e = true)) as [Ht|_]; [congruence | exact IH].
Qed.

Lemma _openFileWindowsResources_run filename w :
  _openFileWindowsResources filename w =
  match k32_BeginUpdateResource (filename_charset filename) filename false w
  with
  | (FRet h, w1) =>
      mkRun (if h =? 0 then Raised (WinError (GetLastError w1))
             else Returned h)
            w1 [EvBeginUpdateResource (filename_charset filename) filename
                  false]
  | (FRaise tag, w1) =>
      mkRun (Raised (CtypesError tag)) w1
            [EvBeginUpdateResource (filename_charset filename) filename false]
  end.
Proof.
  unfold _openFileWindowsResources.
  destruct (k32_BeginUpdateResource _ filename false w)
    as [[h|tag] w1] eqn:Hbegin.
  - rewrite (bind_call_ret _ _ _ _ _ _ Hbegin). cbn [truthy].
    destruct (h =? 0); reflexivity.
  - now rewrite (bind_call_raise _ _ _ _ _ _ Hbegin).
Qed.

Lemma _closeFileWindowsResources_run update_handle w :
  _closeFileWindowsResources update_handle w =
  match k32_EndUpdateResource Narrow update_handle false w with
  | (FRet r, w1) =>
      mkRun (if r =? 0 then Raised (WinError (GetLastError w1))
             else Returned PyNone)
            w1 [EvEndUpdateResource Narrow update_handle false]
  | (FRaise tag, w1) =>
      mkRun (Raised (CtypesError tag)) w1
            [EvEndUpdateResource Narrow update_handle false]
  end.
Proof.
  unfold _closeFileWindowsResources.
  destruct (k32_EndUpdateResource Narrow update_handle false w)
    as [[r|tag] w1] eqn:Hend.
  - rewrite (bind_call_ret _ _ _ _ _ _ Hend). cbn [truthy].
    destruct (r =? 0); reflexivity.
  - now rewrite (bind_call_raise _ _ _ _ _ _ Hend).
Qed.

(** The size passed with the payload: 0 for [None], [len(data)] otherwise. *)
Definition payload_size (data : option (list Byte.byte)) : Z :=
  match data with
  | None => 0
  | Some d => Z.of_nat (length d)
  end.

Lemma _updateResource_run update_handle resource_kind res_name lang data w :
  _updateResource update_handle resource_kind res_name lang data w =
  match k32_UpdateResource Narrow update_handle resource_kind res_name 0 data
          (payload_size data) w
  with
  | (FRet r, w1) =>
      mkRun (if r =? 0 then Raised (WinError (GetLastError w1))
             else Returned PyNone)
            w1 [EvUpdateResource Narrow update_handle resource_kind res_name 0
                  data (payload_size data)]
  | (FRaise tag, w1) =>
      mkRun (Raised (CtypesError tag)) w1
            [EvUpdateResource Narrow update_handle resource_kind res_name 0
               data (payload_size data)]
  end.
Proof.
  unfold _updateResource. fold (payload_size data).
  destruct (k32_UpdateResource Narrow _ _ _ 0 data _ w)
    as [[r|tag] w1] eqn:Hupd.
  - rewrite (bind_call_ret _ _ _ _ _ _ Hupd). cbn [truthy].
    destruct (r =? 0); reflexivity.
  - now rewrite (bind_call_raise _ _ _ _ _ _ Hupd).
Qed.

(** One round of the loop of [deleteWindowsResources]: the staging call, and
    then an exception in every case. *)
Lemma delete_loop_cons_run update_handle resource_kind res_name rest w :
  delete_loop update_handle resource_kind (res_name :: rest) w =
  let u := _updateResource update_handle resource_kind res_name 0 None w in
  mkRun match out u with
        | Returned _ => Raised (WinError (GetLastError (world u)))
        | Raised e => Raised e
        end
        (world u) (events u).
Proof.
  cbn [delete_loop]. rewrite bind_run. cbv zeta.
  pose proof (_updateResource_yields update_handle resource_kind res_name 0
                None w) as Hy.
  destruct (out (_updateResource _ _ _ 0 None w)) as [v|e]; [| reflexivity].
  subst v. cbn [truthy negb]. unfold after, raise_WinError.
  cbn [out world events]. now rewrite app_nil_r.
Qed.

(** The callback on its success path: six calls, one item appended. *)
Lemma callback_run_ok hModule lpType lpName lParam result w
    hResource size hData ptr s released w1 w2 w3 w4 w5 w6 :
  k32_FindResource Narrow hModule lpName lpType w = (FRet hResource, w1) ->
  k32_SizeofResource hModule hResource w1 = (FRet size, w2) ->
  k32_LoadResource hModule hResource w2 = (FRet hData, w3) ->
  k32_LockResource hData w3 = (FRet ptr, w4) ->
  ctypes_string_at ptr size w4 = (FRet s, w5) ->
  k32_FreeResource hData w5 = (FRet released, w6) ->
  callback true hModule lpType lpName lParam result w =
  mkRun (Returned (true, result ++ [ItemData lpType lpName s])) w6
        [EvFindResource Narrow hModule lpName lpType;
         EvSizeofResource hModule hResource;
         EvLoadResource hModule hResource;
         EvLockResource hData;
         EvStringAt ptr size;
         EvFreeResource hData].
Proof.
  intros Hfind Hsize Hload Hlock Hcopy Hfree. unfold callback.
  rewrite (bind_call_ret _ _ _ _ _ _ Hfind).
  rewrite (bind_call_ret _ _ _ _ _ _ Hsize).
  rewrite (bind_call_ret _ _ _ _ _ _ Hload).
  rewrite bind_run, try_finally_run.
  rewrite (bind_call_ret _ _ _ _ _ _ Hlock).
  rewrite (bind_call_ret _ _ _ _ _ _ Hcopy).
  unfold ret. cbn [after out world events].
  rewrite !(call_ret _ _ _ _ _ Hfree).
  cbn [after out world events app]. reflexivity.
Qed.

(** [getResourcesFromDLL] when the library loads, the enumeration call and
    the callbacks return and the release returns: the items collected, and
    the trace load, enumerate, callbacks, release. *)
Lemma getResourcesFromDLL_run_ok filename resource_kind with_data w
    hmodule names continue items released w1 w2 w4 :
  k32_LoadLibraryEx (filename_charset filename) filename 0 load_flags w
    = (FRet hmodule, w1) ->
  hmodule <> 0 ->
  k32_EnumResourceNames Narrow hmodule resource_kind w1 = (FRet names, w2) ->
  let loop :=
    enumerate (fun name => callback with_data hmodule resource_kind name PyNone)
              names [] w2 in
  out loop = Returned (continue, items) ->
  k32_FreeLibrary hmodule (world loop) = (FRet released, w4) ->
  getResourcesFromDLL filename resource_kind with_data w =
  mkRun (Returned items) w4
        ([EvLoadLibraryEx (filename_charset filename) filename 0 load_flags;
          EvEnumResourceNames Narrow hmodule resource_kind]
         ++ events loop ++ [EvFreeLibrary hmodule]).
Proof.
  intros Hload Hne Henum loop Hloop Hfree.
  unfold getResourcesFromDLL, EnumResourceNames.
  rewrite (bind_call_ret _ _ _ _ _ _ Hload).
  apply Z.eqb_neq in Hne. rewrite Hne.
  rewrite bind_run, (bind_call_ret _ _ _ _ _ _ Henum).
  fold loop. cbn [after out world events]. rewrite Hloop.
  rewrite (bind_call_ret _ _ _ _ _ _ Hfree).
  unfold ret, after. cbn [out world events snd app].
  reflexivity.
Qed.

(** [addResourceToFile] when the three calls are accepted. *)
Lemma addResourceToFile_run_ok target_filename data resource_kind res_name w
    update_handle staged committed w1 w2 w3 :
  k32_BeginUpdateResource (filename_charset target_filename) target_filename
    false w = (FRet update_handle, w1) ->
  update_handle <> 0 ->
  k32_UpdateResource Narrow update_handle resource_kind res_name 0 data
    (payload_size data) w1 = (FRet staged, w2) ->
  staged <> 0 ->
  k32_EndUpdateResource Narrow update_handle false w2 = (FRet committed, w3) ->
  committed <> 0 ->
  addResourceToFile target_filename data resource_kind res_name w =
  mkRun (Returned PyNone) w3
        [EvBeginUpdateResource (filename_charset target_filename)
           target_filename false;
         EvUpdateResource Narrow update_handle resource_kind res_name 0 data
           (payload_size data);
         EvEndUpdateResource Narrow update_handle false].
Proof.
  intros Hbegin Hh Hupd Hs Hend Hc.
  apply Z.eqb_neq in Hh, Hs, Hc.
  unfold addResourceToFile.
  rewrite bind_run, _openFileWindowsResources_run, Hbegin, Hh.
  cbn [out world events].
  rewrite bind_run, _updateResource_run, Hupd, Hs. cbn [out world events].
  rewrite bind_run, _closeFileWindowsResources_run, Hend, Hc.
  reflexivity.
Qed.

End Runs.
(** ** The claims *)

Section Claims.
Context {W : Type} `{Platform W}.

(** C2: for every non-empty identifier list, [deleteWindowsResources] never
    returns and never reaches the commit: it raises with at most the first
    deletion staged.  When the session opens and the system accepts the first
    staged deletion, the call still raises, right after that one staging call:
    [_updateResource] yields [None] and the caller's test of that value fires. *)
Theorem C2_delete_raises_before_commit
    (filename : PyPath) (resource_kind : Z) (res_name : ResName)
    (rest : list ResName) (w : W) :
  let r := deleteWindowsResources filename resource_kind (res_name :: rest) w in
  let cs := filename_charset filename in
  returned (out r) = false /\
  count_events is_commit (events r) = 0%nat /\
  (events r = [EvBeginUpdateResource cs filename false] \/
   exists h,
     events r = [EvBeginUpdateResource cs filename false;
                 EvUpdateResource Narrow h resource_kind res_name 0 None 0]) /\
  (forall h w1 accepted w2,
     k32_BeginUpdateResource cs filename false w = (FRet h, w1) ->
     h <> 0 ->
     k32_UpdateResource Narrow h resource_kind res_name 0 None 0 w1
       = (FRet accepted, w2) ->
     accepted <> 0 ->
     out r = Raised (WinError (GetLastError w2)) /\
     world r = w2 /\
     events r = [EvBeginUpdateResource cs filename false;
                 EvUpdateResource Narrow h resource_kind res_name 0 None 0]).
Proof.
  intros r cs. subst r cs.
  unfold deleteWindowsResources.
  rewrite bind_run, _openFileWindowsResources_run.
  destruct (k32_BeginUpdateResource _ filename false w)
    as [[h|tag] w1] eqn:Hbegin; cbn [out world events].
  - destruct (h =? 0) eqn:Hh.
    + refine (conj eq_refl (conj eq_refl (conj (or_introl eq_refl) _))).
      intros h' w1' acc w2 Heq Hne. injection Heq as -> ->.
      apply Z.eqb_neq in Hne; congruence.
    + rewrite bind_run, delete_loop_cons_run, _updateResource_run.
      cbn [payload_size].
      destruct (k32_UpdateResource Narrow h resource_kind res_name 0 None 0 w1)
        as [[acc|tag] w2] eqn:Hupd; cbv zeta; cbn [out world events after app].
      * destruct (acc =? 0) eqn:Hacc; cbn [out world events after app];
          refine (conj eq_refl (conj eq_refl
                    (conj (or_intror (ex_intro _ h eq_refl)) _)));
          intros h' w1' acc' w2' Heq _ Hupd' Hne;
          injection Heq as -> ->; rewrite Hupd in Hupd';
          injection Hupd' as -> ->.
        -- apply Z.eqb_neq in Hne; congruence.
        -- repeat split.
      * refine (conj eq_refl (conj eq_refl
                  (conj (or_intror (ex_intro _ h eq_refl)) _))).
        intros h' w1' acc' w2' Heq _ Hupd' _.
        injection Heq as -> ->. rewrite Hupd in Hupd'. discriminate.
  - refine (conj eq_refl (conj eq_refl (conj (or_introl eq_refl) _))).
    intros h w1' acc w2 Heq. discriminate.
Qed.


(** C7: when the binary loads and the enumeration call returns after
    presenting no resource of the requested kind, [getResourcesFromDLL]
    returns the empty list and raises nothing; the outcome of the enumeration
    call is not inspected. *)
Theorem C7_no_resources_returns_empty
    (filename : PyPath) (resource_kind : Z) (with_data : bool) (w : W)
    (hmodule released : Z) (w1 w2 w3 : W) :
  k32_LoadLibraryEx (filename_charset filename) filename 0 load_flags w
    = (FRet hmodule, w1) ->
  hmodule <> 0 ->
  k32_EnumResourceNames Narrow hmodule resource_kind w1 = (FRet [], w2) ->
  k32_FreeLibrary hmodule w2 = (FRet released, w3) ->
  getResourcesFromDLL filename resource_kind with_data w =
  mkRun (Returned []) w3
        [EvLoadLibraryEx (filename_charset filename) filename 0 load_flags;
         EvEnumResourceNames Narrow hmodule resource_kind;
         EvFreeLibrary hmodule].
Proof.
  intros Hload Hne Henum Hfree.
  unfold getResourcesFromDLL, EnumResourceNames.
  rewrite (bind_call_ret _ _ _ _ _ _ Hload).
  apply Z.eqb_neq in Hne. rewrite Hne.
  rewrite bind_run, (bind_call_ret _ _ _ _ _ _ Henum).
  cbn [enumerate ret after out world events snd].
  rewrite (bind_call_ret _ _ _ _ _ _ Hfree).
  reflexivity.
Qed.

(** C8: [_updateResource] does not use its [lang] argument: for any two
    language values it is the same computation, and the one call it makes
    stages the resource under language 0. *)
Theorem C8_updateResource_language_neutral
    (update_handle resource_kind : Z) (res_name : ResName) (lang1 lang2 : Z)
    (data : option (list Byte.byte)) (w : W) :
  _updateResource update_handle resource_kind res_name lang1 data w =
  _updateResource update_handle resource_kind res_name lang2 data w /\
  events (_updateResource update_handle resource_kind res_name lang1 data w) =
  [EvUpdateResource Narrow update_handle resource_kind res_name 0 data
     match data with
     | None => 0
     | Some d => Z.of_nat (length d)
     end].
Proof.
  split; [reflexivity |].
  rewrite _updateResource_run. fold (payload_size data).
  now destruct (k32_UpdateResource _ _ _ _ _ _ _ w) as [[r|tag] w1].
Qed.


(** C10: the [assert kind == resource_kind] of [copyResourcesFromFileToFile]
    never fails: every item that [getResourcesFromDLL] returns with
    [with_data] set is a triple carrying the requested kind, and the copy
    never raises an assertion error. *)
Theorem C10_copy_assertion_never_fails
    (source_filename target_filename : PyPath) (resource_kind : Z) (w : W) :
  match out (getResourcesFromDLL source_filename resource_kind true w) with
  | Returned res_data => Forall (item_of_kind resource_kind) res_data
  | Raised _ => True
  end /\
  is_AssertionError
    (out (copyResourcesFromFileToFile source_filename target_filename
            resource_kind w)) = false.
Proof.
  split.
  - pose proof (getResourcesFromDLL_yields source_filename resource_kind w)
      as Hy.
    destruct (out _); [exact Hy | exact I].
  - pose proof (copyResourcesFromFileToFile_yields source_filename
                  target_filename resource_kind w) as Hy.
    destruct (out _) as [v|[]]; try reflexivity. destruct Hy.
Qed.

End Claims.

(** C5: when the source holds no resource of the kind,
    [copyResourcesFromFileToFile] makes no call of the update session
    interface (no session is opened on the target) and leaves the file
    contents of the system, the target among them, as they were. *)
Theorem C5_copy_without_resources_is_noop
    {W D : Type} `{Platform W} (files : W -> D) `{!ReadOnlyQueries files}
    (source_filename target_filename : PyPath) (resource_kind : Z) (w : W) :
  no_resources_of_kind source_filename resource_kind w ->
  let r := copyResourcesFromFileToFile source_filename target_filename
             resource_kind w in
  count_events is_update_call (events r) = 0%nat /\
  files (world r) = files w.
Proof.
  intros Hno r.
  destruct (copy_without_resources source_filename target_filename
              resource_kind w
              (no_resources_enumeration _ _ true _ Hno)) as [Hev Hw].
  fold r in Hev, Hw. rewrite Hev, Hw. split.
  - apply count_events_none.
    eapply Forall_impl;
      [apply (getResourcesFromDLL_emits source_filename resource_kind true w) |].
    intros e He. now apply extraction_call_is_query in He.
  - apply (getResourcesFromDLL_keeps files).
Qed.

(** ** The reference platform: laws, runs and the round trip *)

Section ReferenceFacts.
Import Reference.
Variables py3 propagate : bool.
Abbreviation P := (platform py3 propagate).

Lemma ref_read_only : @ReadOnlyQueries World _ P disk.
Proof.
  split; intros; cbn [k32_LoadLibraryEx k32_EnumResourceNames k32_FreeLibrary
    k32_FindResource k32_SizeofResource k32_LoadResource k32_LockResource
    ctypes_string_at k32_FreeResource platform].
  - unfold ref_LoadLibraryEx. now destruct (disk w !! path_text fn).
  - unfold ref_EnumResourceNames.
    destruct (negb (int_argument_ok kind)); [reflexivity |].
    destruct (libs w !! h); [| reflexivity].
    now destruct (names_of_kind kind l).
  - unfold ref_FreeLibrary. now destruct (libs w !! h).
  - unfold ref_FindResource. destruct (libs w !! h); [| reflexivity].
    now destruct (find_entry kind name l).
  - unfold ref_SizeofResource. now destruct (block r w).
  - unfold ref_LoadResource. now destruct (block r w).
  - unfold ref_LockResource. now destruct (block h w).
  - unfold ref_string_at. destruct (size =? 0); [reflexivity |].
    destruct (mapped w !! ptr); [| reflexivity].
    now destruct ((0 <? size) && (size <=? Z.of_nat (length l))).
  - reflexivity.
Qed.

(** The payload of the entry that (kind, name) resolves to. *)
Definition entry_data (kind : Z) (name : ResName) (dir : list Entry)
    : list Byte.byte :=
  match find_entry kind name dir with
  | Some e => e_data e
  | None => []
  end.

Lemma fresh_not_null w : fresh w <> 0.
Proof. unfold fresh. lia. Qed.

Lemma firstn_whole {A} (l : list A) :
  firstn (Z.to_nat (Z.of_nat (length l))) l = l.
Proof. rewrite Nat2Z.id. apply firstn_all. Qed.

Lemma read_payload_whole (d : list Byte.byte) :
  read_payload (Z.of_nat (length d)) d = d.
Proof.
  unfold read_payload. rewrite Nat2Z.id, Nat.sub_diag. cbn [repeat].
  rewrite app_nil_r. apply firstn_all.
Qed.

Lemma resource_id_passes n : resource_id n = true -> int_argument_ok n = true.
Proof.
  unfold resource_id, int_argument_ok. intros Hn.
  apply andb_true_iff in Hn as [Hlo Hhi].
  apply Z.ltb_lt in Hlo, Hhi. apply andb_true_iff. split.
  - apply Z.leb_le. lia.
  - apply Z.ltb_lt. lia.
Qed.

Lemma ref_string_at_whole ptr (d : list Byte.byte) w :
  mapped w !! ptr = Some d ->
  ref_string_at ptr (Z.of_nat (length d)) w = (FRet d, w).
Proof.
  intros Hmap. unfold ref_string_at.
  destruct (Z.of_nat (length d) =? 0) eqn:Hlen.
  - apply Z.eqb_eq in Hlen.
    destruct d; [reflexivity | cbn [length] in Hlen; lia].
  - rewrite Hmap. apply Z.eqb_neq in Hlen.
    replace (0 <? Z.of_nat (length d)) with true
      by (symmetry; apply Z.ltb_lt; lia).
    rewrite Z.leb_refl. cbn [andb]. now rewrite firstn_whole.
Qed.

Lemma block_fresh w d :
  block (fresh w)
        (mkWorld (disk w) (libs w) (<[fresh w := d]> (mapped w)) (sessions w)
                 (locked w) (fresh w) (last_error w)) = Some d.
Proof.
  unfold block. rewrite (proj2 (Z.eqb_neq _ _) (fresh_not_null w)).
  apply lookup_insert_eq.
Qed.

(** The callback on the reference platform: it appends the payload the name
    resolves to, and nothing when the name resolves to no resource (the null
    handle has size zero and no bytes are read). *)
Lemma callback_extracts hModule kind name lParam result dir w :
  libs w !! hModule = Some dir ->
  let r := @callback World P true hModule kind name lParam result w in
  out r =
    Returned (true, result ++ [ItemData kind name (entry_data kind name dir)])
  /\ libs (world r) = libs w.
Proof.
  intros Hlib r. subst r. unfold entry_data.
  destruct (find_entry kind name dir) as [e|] eqn:Hfind.
  - set (h := fresh w).
    set (w1 := mkWorld (disk w) (libs w) (<[h := e_data e]> (mapped w))
                 (sessions w) (locked w) h (last_error w)).
    assert (Hmap : block h w1 = Some (e_data e)) by apply block_fresh.
    assert (Hmap' : mapped w1 !! h = Some (e_data e))
      by apply lookup_insert_eq.
    assert (H1 : ref_FindResource Narrow hModule name kind w = (FRet h, w1)).
    { unfold ref_FindResource. now rewrite Hlib, Hfind. }
    assert (H2 : ref_SizeofResource hModule h w1
                 = (FRet (Z.of_nat (length (e_data e))), w1)).
    { unfold ref_SizeofResource. now rewrite Hmap. }
    assert (H3 : ref_LoadResource hModule h w1 = (FRet h, w1)).
    { unfold ref_LoadResource. now rewrite Hmap. }
    assert (H4 : ref_LockResource h w1 = (FRet h, w1)).
    { unfold ref_LockResource. now rewrite Hmap. }
    pose proof (ref_string_at_whole h (e_data e) w1 Hmap') as H5.
    rewrite (@callback_run_ok World P hModule kind name lParam result w
               h _ h h (e_data e) 0 w1 w1 w1 w1 w1 _ H1 H2 H3 H4 H5 eq_refl).
    split; reflexivity.
  - set (w1 := set_last_error ERROR_RESOURCE_NAME_NOT_FOUND w).
    set (w2 := set_last_error ERROR_INVALID_HANDLE w1).
    set (w3 := set_last_error ERROR_INVALID_HANDLE w2).
    assert (H1 : ref_FindResource Narrow hModule name kind w = (FRet 0, w1)).
    { unfold ref_FindResource. now rewrite Hlib, Hfind. }
    assert (H2 : ref_SizeofResource hModule 0 w1 = (FRet 0, w2))
      by reflexivity.
    assert (H3 : ref_LoadResource hModule 0 w2 = (FRet 0, w3)) by reflexivity.
    assert (H4 : ref_LockResource 0 w3 = (FRet 0, w3)) by reflexivity.
    assert (H5 : ref_string_at 0 0 w3 = (FRet [], w3)) by reflexivity.
    rewrite (@callback_run_ok World P hModule kind name lParam result w
               0 0 0 0 [] 0 w1 w2 w3 w3 w3 _ H1 H2 H3 H4 H5 eq_refl).
    split; reflexivity.
Qed.

Lemma enumerate_extracts hModule kind dir names result w :
  libs w !! hModule = Some dir ->
  let r := @enumerate World P
             (fun name => @callback World P true hModule kind name PyNone)
             names result w in
  out r =
    Returned (true,
              result ++
              map (fun name => ItemData kind name (entry_data kind name dir))
                  names) /\
  libs (world r) = libs w.
Proof.
  revert result w.
  induction names as [|name rest IH]; intros result w Hlib r; subst r.
  - cbn [enumerate map ret out world]. now rewrite app_nil_r.
  - destruct (callback_extracts hModule kind name PyNone result dir w Hlib)
      as [Hout Hlibs].
    cbn [enumerate]. rewrite bind_run. unfold attempt.
    cbn [out world events]. rewrite Hout. unfold after.
    cbn [out world events].
    destruct (IH (result ++ [ItemData kind name (entry_data kind name dir)])
                 (world (@callback World P true hModule kind name PyNone
                           result w)))
      as [Hout' Hlibs'].
    + now rewrite Hlibs.
    + rewrite Hout', Hlibs', Hlibs. split; [| reflexivity].
      cbn [map]. now rewrite <- app_assoc.
Qed.

(** The names as the callback receives them. *)
Definition presented (names : list ResName) : list ResName :=
  map (fun name => IntId (as_LONG name)) names.

Lemma ref_EnumResourceNames_presents h kind dir w :
  libs w !! h = Some dir ->
  int_argument_ok kind = true ->
  exists w2,
    ref_EnumResourceNames Narrow h kind w
      = (FRet (presented (names_of_kind kind dir)), w2) /\
    libs w2 = libs w /\ disk w2 = disk w /\ locked w2 = locked w.
Proof.
  intros Hlib Hkind. unfold ref_EnumResourceNames.
  rewrite Hkind. cbn [negb]. rewrite Hlib.
  destruct (names_of_kind kind dir); eexists; repeat split; reflexivity.
Qed.

(** What the enumeration with data returns on the reference platform: one
    triple per resource name of the kind, under the integer the callback
    received for it. *)
Lemma getResourcesFromDLL_extracts filename kind dir w :
  disk w !! path_text filename = Some dir ->
  int_argument_ok kind = true ->
  out (@getResourcesFromDLL World P filename kind true w) =
  Returned (map (fun name => ItemData kind name (entry_data kind name dir))
                (presented (names_of_kind kind dir))).
Proof.
  intros Hdisk Hkind.
  set (h := fresh w).
  set (w1 := mkWorld (disk w) (<[h := dir]> (libs w)) (mapped w) (sessions w)
               (locked w) h (last_error w)).
  assert (Hlib : libs w1 !! h = Some dir) by apply lookup_insert_eq.
  assert (Hload : ref_LoadLibraryEx (@filename_charset World P filename)
                    filename 0 load_flags w = (FRet h, w1)).
  { unfold ref_LoadLibraryEx. now rewrite Hdisk. }
  destruct (ref_EnumResourceNames_presents h kind dir w1 Hlib Hkind)
    as [w2 [Henum [Hlibs2 _]]].
  destruct (enumerate_extracts h kind dir (presented (names_of_kind kind dir))
              [] w2)
    as [Hloop Hlibs3].
  { now rewrite Hlibs2. }
  cbn [app] in Hloop.
  assert (Hfree : exists w4,
    ref_FreeLibrary h
      (world (@enumerate World P
                (fun name => @callback World P true h kind name PyNone)
                (presented (names_of_kind kind dir)) [] w2)) = (FRet 1, w4)).
  { unfold ref_FreeLibrary. rewrite Hlibs3, Hlibs2, Hlib. now eexists. }
  destruct Hfree as [w4 Hfree].
  now rewrite (@getResourcesFromDLL_run_ok World P filename kind true w h _ _ _
                 _ w1 w2 w4 Hload (fresh_not_null w) Henum Hloop Hfree).
Qed.

(** Integer identifiers reach the callback as they are. *)
Lemma presented_names kind dir :
  integer_named kind dir = true ->
  presented (names_of_kind kind dir) = names_of_kind kind dir.
Proof.
  intros Hdir. unfold presented.
  rewrite <- (List.map_id (names_of_kind kind dir)) at 2.
  apply map_ext_in. intros name Hin. unfold names_of_kind in Hin.
  rewrite <- list_elem_of_In, elem_of_remove_dups, list_elem_of_In in Hin.
  apply in_map_iff in Hin as [e [<- Hin]].
  apply filter_In in Hin as [Hin Hk].
  unfold integer_named in Hdir. rewrite forallb_forall in Hdir.
  specialize (Hdir e Hin). rewrite Hk in Hdir. cbn [negb orb] in Hdir.
  destruct (e_name e); [reflexivity | discriminate].
Qed.

Lemma find_after_filter {A} (p : A -> bool) (l : list A) (x : A) :
  p x = true ->
  List.find p (List.filter (fun e => negb (p e)) l ++ [x]) = Some x.
Proof.
  intros Hx. induction l as [|a l IH]; cbn [List.filter app List.find].
  - now rewrite Hx.
  - destruct (p a) eqn:Ha; cbn [negb app List.find]; [exact IH |].
    now rewrite Ha.
Qed.

(** What [addResourceToFile] does to a file that exists and is not being
    edited. *)
Lemma addResourceToFile_commits target data kind name dir w :
  disk w !! path_text target = Some dir ->
  path_text target ∉ locked w ->
  let r := @addResourceToFile World P target (Some data) kind name w in
  out r = Returned PyNone /\
  disk (world r) !! path_text target =
    Some (apply_staged dir (mkStaged kind name 0 (Some data))).
Proof.
  intros Hdisk Hfree r. subst r.
  set (h := fresh w).
  set (path := path_text target).
  set (w1 := mkWorld (disk w) (libs w) (mapped w)
               (<[h := mkSession path dir []]> (sessions w))
               ({[path]} ∪ locked w) h (last_error w)).
  set (op := mkStaged kind name 0 (Some data)).
  set (w2 := mkWorld (disk w1) (libs w1) (mapped w1)
               (<[h := mkSession path dir [op]]> (sessions w1))
               (locked w1) (next_handle w1) (last_error w1)).
  assert (Hbegin : ref_BeginUpdateResource (@filename_charset World P target)
                     target false w = (FRet h, w1)).
  { unfold ref_BeginUpdateResource. cbv zeta. rewrite Hdisk.
    now rewrite bool_decide_eq_false_2 by exact Hfree. }
  assert (Hupd : ref_UpdateResource Narrow h kind name 0 (Some data)
                   (payload_size (Some data)) w1 = (FRet 1, w2)).
  { unfold ref_UpdateResource. cbn [sessions w1].
    rewrite lookup_insert_eq. cbn [u_path u_base u_staged payload_size app
      option_map]. now rewrite read_payload_whole. }
  assert (Hend : exists w3,
    ref_EndUpdateResource Narrow h false w2 = (FRet 1, w3) /\
    disk w3 !! path = Some (apply_staged dir op)).
  { unfold ref_EndUpdateResource. cbn [sessions w2].
    rewrite lookup_insert_eq. eexists. split; [reflexivity |].
    cbn [disk u_path u_base u_staged commit fold_left].
    apply lookup_insert_eq. }
  destruct Hend as [w3 [Hend Hdisk3]].
  rewrite (@addResourceToFile_run_ok World P target (Some data) kind name w
             h 1 1 w1 w2 w3 Hbegin (fresh_not_null w) Hupd ltac:(lia) Hend
             ltac:(lia)).
  split; [reflexivity | exact Hdisk3].
Qed.

End ReferenceFacts.
(** C6: on the reference platform, for a target that exists and is not being
    edited, a resource kind and an integer identifier, [addResourceToFile]
    followed by the extraction of the same kind yields the identifier with a
    payload of exactly the supplied length, byte for byte the supplied
    payload: the size staged is the length of the payload, and the bytes
    copied are as many as the size measured. *)
Theorem C6_add_then_extract_same_length
    (py3 propagate : bool) (target : PyPath) (data : list Byte.byte)
    (kind n : Z) (dir : list Reference.Entry) (w : Reference.World) :
  Reference.disk w !! path_text target = Some dir ->
  path_text target ∉ Reference.locked w ->
  Reference.resource_id kind = true ->
  Reference.resource_id n = true ->
  let P := Reference.platform py3 propagate in
  let r1 := @addResourceToFile _ P target (Some data) kind (IntId n) w in
  let r2 := @getResourcesFromDLL _ P target kind true (world r1) in
  out r1 = Returned PyNone /\
  exists items,
    out r2 = Returned items /\
    In (ItemData kind (IntId n) data) items /\
    forall d, In (ItemData kind (IntId n) d) items ->
              length d = length data /\ d = data.
Proof.
  intros Hdisk Hfree Hkind Hn P r1 r2.
  destruct (addResourceToFile_commits py3 propagate target data kind (IntId n)
              dir w Hdisk Hfree) as [Hout Hdisk'].
  fold P in Hout, Hdisk'. fold r1 in Hout, Hdisk'.
  split; [exact Hout |].
  pose proof (getResourcesFromDLL_extracts py3 propagate target kind _
                (world r1) Hdisk' (resource_id_passes kind Hkind)) as Hget.
  fold P in Hget. fold r2 in Hget.
  eexists. split; [exact Hget |].
  set (dir' := Reference.apply_staged dir _) in *.
  assert (Hentry : entry_data kind (IntId n) dir' = data).
  { unfold entry_data, Reference.find_entry, dir', Reference.apply_staged.
    simpl. rewrite find_after_filter; [reflexivity |].
    unfold Reference.same_key, Reference.same_name. simpl.
    rewrite !Z.eqb_refl. now rewrite bool_decide_eq_true_2. }
  split.
  - apply in_map_iff. exists (IntId n). split; [now rewrite Hentry |].
    unfold presented. apply in_map_iff. exists (IntId n).
    split; [reflexivity |].
    unfold Reference.names_of_kind.
    rewrite <- list_elem_of_In, elem_of_remove_dups, list_elem_of_In.
    apply in_map_iff.
    exists (Reference.mkEntry kind (IntId n) 0 data). split; [reflexivity |].
    apply filter_In. split; [| simpl; apply Z.eqb_refl].
    unfold dir', Reference.apply_staged. simpl.
    apply in_or_app. right. now left.
  - intros d Hd. apply in_map_iff in Hd as [name [Heq _]].
    injection Heq as -> <-. now rewrite Hentry.
Qed.

(** ** Runs on the reference platform *)

Section ReferenceRuns.
Import Reference.
#[local] Existing Instance cpython3.

Lemma ref_no_resources (py3 propagate : bool) filename kind dir w :
  disk w !! path_text filename = Some dir ->
  names_of_kind kind dir = [] ->
  int_argument_ok kind = true ->
  @no_resources_of_kind World (platform py3 propagate) filename kind w.
Proof.
  intros Hdisk Hnames Hkind hmodule w1 Hload _.
  simpl in Hload. unfold ref_LoadLibraryEx in Hload.
  rewrite Hdisk in Hload. injection Hload as <- <-.
  simpl. unfold ref_EnumResourceNames. rewrite Hkind. simpl.
  rewrite lookup_insert_eq, Hnames. now eexists.
Qed.

(** C1: deleting the one manifest of [app.exe], on a system that accepts every
    call: the session opens, the deletion is staged and accepted, and the call
    raises without committing; the manifest is still in the file and the
    session is left open with the deletion pending. *)
Theorem C1_delete_accepted_never_commits :
  let r := deleteWindowsResources (StrPath "app.exe") RT_MANIFEST [IntId 1]
             sample_world in
  out r = Raised (WinError 0) /\
  events r =
    [EvBeginUpdateResource Wide (StrPath "app.exe") false;
     EvUpdateResource Narrow 1 RT_MANIFEST (IntId 1) 0 None 0] /\
  count_events is_commit (events r) = 0%nat /\
  disk (world r) !! "app.exe"%string = Some app_directory /\
  sessions (world r) !! 1 =
    Some (mkSession "app.exe" app_directory
            [mkStaged RT_MANIFEST (IntId 1) 0 None]).
Proof. vm_compute. repeat split. Qed.

(** C3: enumerating [app.exe] with a kind the binding cannot pass: the
    library loads, the enumeration call raises, and the function leaves
    without releasing the library handle, which stays mapped. *)
Theorem C3_enumeration_error_leaks_library :
  let r := getResourcesFromDLL (StrPath "app.exe") (2 ^ 64) false
             sample_world in
  out r = Raised (CtypesError 1) /\
  events r =
    [EvLoadLibraryEx Wide (StrPath "app.exe") 0 35;
     EvEnumResourceNames Narrow 1 (2 ^ 64)] /\
  count_events (is_FreeLibrary 1) (events r) = 0%nat /\
  libs (world r) !! 1 = Some app_directory.
Proof. vm_compute. repeat split. Qed.

Lemma C2_delete_raises_before_commit_witness :
  ref_BeginUpdateResource Wide (StrPath "app.exe") false sample_world
    = (FRet 1, session_world) /\
  ref_UpdateResource Narrow 1 RT_MANIFEST (IntId 1) 0 None 0 session_world
    = (FRet 1, staged_world) /\
  out (deleteWindowsResources (StrPath "app.exe") RT_MANIFEST [IntId 1]
         sample_world) = Raised (WinError 0) /\
  world (deleteWindowsResources (StrPath "app.exe") RT_MANIFEST [IntId 1]
           sample_world) = staged_world.
Proof.
  assert (Hbegin :
    ref_BeginUpdateResource Wide (StrPath "app.exe") false sample_world
      = (FRet 1, session_world)) by (vm_compute; reflexivity).
  assert (Hstage :
    ref_UpdateResource Narrow 1 RT_MANIFEST (IntId 1) 0 None 0 session_world
      = (FRet 1, staged_world)) by (vm_compute; reflexivity).
  split; [exact Hbegin | split; [exact Hstage |]].
  destruct (C2_delete_raises_before_commit (StrPath "app.exe") RT_MANIFEST
              (IntId 1) [] sample_world) as [_ [_ [_ Haccepted]]].
  destruct (Haccepted 1 session_world 1 staged_world Hbegin ltac:(lia) Hstage
              ltac:(lia)) as [Hout [Hworld _]].
  split; [exact Hout | exact Hworld].
Defined.


Lemma C5_copy_without_resources_is_noop_witness :
  no_resources_of_kind (StrPath "app.exe") RT_RCDATA sample_world /\
  count_events is_update_call
    (events (copyResourcesFromFileToFile (StrPath "app.exe")
               (StrPath "empty.dll") RT_RCDATA sample_world)) = 0%nat /\
  disk (world (copyResourcesFromFileToFile (StrPath "app.exe")
                 (StrPath "empty.dll") RT_RCDATA sample_world))
    = disk sample_world.
Proof.
  assert (Hno : no_resources_of_kind (StrPath "app.exe") RT_RCDATA
                  sample_world).
  { apply (ref_no_resources true false _ _ app_directory); reflexivity. }
  split; [exact Hno |].
  exact (@C5_copy_without_resources_is_noop World _ cpython3 disk
           (ref_read_only true false) (StrPath "app.exe")
           (StrPath "empty.dll") RT_RCDATA sample_world Hno).
Defined.


Lemma C6_add_then_extract_same_length_witness :
  disk sample_world !! path_text (StrPath "app.exe") = Some app_directory /\
  resource_id RT_RCDATA = true /\
  resource_id 2 = true /\
  out (addResourceToFile (StrPath "app.exe") (Some icon_bytes) RT_RCDATA
         (IntId 2) sample_world) = Returned PyNone /\
  exists items,
    out (getResourcesFromDLL (StrPath "app.exe") RT_RCDATA true
           (world (addResourceToFile (StrPath "app.exe") (Some icon_bytes)
                     RT_RCDATA (IntId 2) sample_world)))
      = Returned items /\
    In (ItemData RT_RCDATA (IntId 2) icon_bytes) items /\
    forall d, In (ItemData RT_RCDATA (IntId 2) d) items ->
              length d = length icon_bytes /\ d = icon_bytes.
Proof.
  assert (Hdisk :
    disk sample_world !! path_text (StrPath "app.exe") = Some app_directory)
    by reflexivity.
  assert (Hkind : resource_id RT_RCDATA = true) by reflexivity.
  assert (Hn : resource_id 2 = true) by reflexivity.
  assert (Hfree : path_text (StrPath "app.exe") ∉ locked sample_world)
    by (simpl; apply not_elem_of_empty).
  split; [exact Hdisk | split; [exact Hkind | split; [exact Hn |]]].
  exact (C6_add_then_extract_same_length true false (StrPath "app.exe")
           icon_bytes RT_RCDATA 2 app_directory sample_world Hdisk Hfree
           Hkind Hn).
Defined.

(** C6 as stated, for every identifier, fails for a text identifier: after
    [addResourceToFile] under the name PAYLOAD the extraction of the kind
    returns one record, which carries an integer (the callback receives names
    as [LONG]) and not the identifier, so no byte sequence comes back for the
    (kind, identifier) that was added. *)
Lemma C6_text_identifier_is_not_extracted :
  let r1 := addResourceToFile (StrPath "app.exe") (Some icon_bytes) RT_RCDATA
              (TextName "PAYLOAD") sample_world in
  let r2 := getResourcesFromDLL (StrPath "app.exe") RT_RCDATA true
              (world r1) in
  out r1 = Returned PyNone /\
  exists n d,
    out r2 = Returned [ItemData RT_RCDATA (IntId n) d] /\
    forall d', ~ In (ItemData RT_RCDATA (TextName "PAYLOAD") d')
                    [ItemData RT_RCDATA (IntId n) d].
Proof.
  split; [vm_compute; reflexivity |].
  eexists _, _. split; [vm_compute; reflexivity |].
  intros d' [Heq | []]. discriminate.
Qed.

(** C7 as stated, for every resource kind, fails for a kind the binding
    cannot pass: [app.exe] loads and holds no resource of kind 2^64, and the
    call raises at the enumeration call instead of returning the empty
    sequence. *)
Lemma C7_unpassable_kind_raises :
  disk sample_world !! path_text (StrPath "app.exe") = Some app_directory /\
  names_of_kind (2 ^ 64) app_directory = [] /\
  k32_LoadLibraryEx (filename_charset (StrPath "app.exe")) (StrPath "app.exe")
    0 load_flags sample_world = (FRet 1, loaded_world) /\
  out (getResourcesFromDLL (StrPath "app.exe") (2 ^ 64) true sample_world)
    = Raised (CtypesError 1).
Proof. vm_compute. repeat split. Qed.

Lemma C7_no_resources_returns_empty_witness :
  k32_LoadLibraryEx (filename_charset (StrPath "app.exe")) (StrPath "app.exe")
    0 load_flags sample_world = (FRet 1, loaded_world) /\
  k32_EnumResourceNames Narrow 1 RT_RCDATA loaded_world
    = (FRet [], set_last_error ERROR_RESOURCE_TYPE_NOT_FOUND loaded_world) /\
  k32_FreeLibrary 1
      (set_last_error ERROR_RESOURCE_TYPE_NOT_FOUND loaded_world)
    = (FRet 1,
       snd (ref_FreeLibrary 1
              (set_last_error ERROR_RESOURCE_TYPE_NOT_FOUND loaded_world))) /\
  out (getResourcesFromDLL (StrPath "app.exe") RT_RCDATA true sample_world)
    = Returned [].
Proof.
  assert (Hload :
    k32_LoadLibraryEx (filename_charset (StrPath "app.exe"))
      (StrPath "app.exe") 0 load_flags sample_world = (FRet 1, loaded_world))
    by (vm_compute; reflexivity).
  assert (Henum :
    k32_EnumResourceNames Narrow 1 RT_RCDATA loaded_world
      = (FRet [], set_last_error ERROR_RESOURCE_TYPE_NOT_FOUND loaded_world))
    by (vm_compute; reflexivity).
  assert (Hfree :
    k32_FreeLibrary 1
        (set_last_error ERROR_RESOURCE_TYPE_NOT_FOUND loaded_world)
      = (FRet 1,
         snd (ref_FreeLibrary 1
                (set_last_error ERROR_RESOURCE_TYPE_NOT_FOUND loaded_world))))
    by (vm_compute; reflexivity).
  split; [exact Hload | split; [exact Henum | split; [exact Hfree |]]].
  rewrite (C7_no_resources_returns_empty (StrPath "app.exe") RT_RCDATA true
             sample_world 1 1 loaded_world
             (set_last_error ERROR_RESOURCE_TYPE_NOT_FOUND loaded_world)
             (snd (ref_FreeLibrary 1
                     (set_last_error ERROR_RESOURCE_TYPE_NOT_FOUND
                        loaded_world)))
             Hload ltac:(lia) Henum Hfree).
  reflexivity.
Defined.

End ReferenceRuns.

(** ** Further properties of the operations, for every platform *)

(** The calls the callback makes for one resource. *)
Definition callback_call (e : Event) : Prop :=
  match e with
  | EvFindResource _ _ _ _ | EvSizeofResource _ _ | EvLoadResource _ _
  | EvLockResource _ | EvStringAt _ _ | EvFreeResource _ => True
  | _ => False
  end.

(** The calls of the library handle: load, enumerate, release. *)
Definition library_call (e : Event) : Prop :=
  match e with
  | EvLoadLibraryEx _ _ _ _ | EvEnumResourceNames _ _ _ | EvFreeLibrary _ =>
      True
  | _ => False
  end.

Definition is_any_FreeLibrary (e : Event) : bool :=
  match e with
  | EvFreeLibrary _ => true
  | _ => false
  end.

(** The update handle a call is made on. *)
Definition session_handle (e : Event) : option Z :=
  match e with
  | EvUpdateResource _ h _ _ _ _ _ => Some h
  | EvEndUpdateResource _ h _ => Some h
  | _ => None
  end.

(** The staging call [copyResourcesFromFileToFile] makes for one item. *)
Definition stage_event (update_handle resource_kind : Z) (it : Item) : Event :=
  match it with
  | ItemData _ name data =>
      EvUpdateResource Narrow update_handle resource_kind name 0 (Some data)
        (Z.of_nat (length data))
  | ItemName name =>
      EvUpdateResource Narrow update_handle resource_kind name 0 None 0
  end.

Section MoreFacts.
Context {W : Type} `{Platform W}.

Lemma bind_ret {A B} (a : A) (k : A -> M W B) w : bind (ret a) k w = k a w.
Proof.
  rewrite bind_run. unfold ret, after. cbn [out world events app].
  now destruct (k a w).
Qed.

Lemma count_events_app p evs1 evs2 :
  count_events p (evs1 ++ evs2) =
  (count_events p evs1 + count_events p evs2)%nat.
Proof. unfold count_events. now rewrite filter_app, length_app. Qed.

Lemma callback_emits_calls with_data hModule lpType lpName lParam result :
  emits callback_call (callback with_data hModule lpType lpName lParam result).
Proof.
  unfold callback. destruct with_data; [| apply emits_ret].
  apply emits_bind; [apply emits_call; exact I | intros hResource].
  apply emits_bind; [apply emits_call; exact I | intros size].
  apply emits_bind; [apply emits_call; exact I | intros hData].
  apply emits_bind; [| intros; apply emits_ret].
  apply emits_try_finally; [| apply emits_call; exact I].
  apply emits_bind; [apply emits_call; exact I | intros ptr].
  apply emits_bind; [apply emits_call; exact I | intros s].
  apply emits_ret.
Qed.

(** Without data the callback makes no call, so the loop is silent and
    collects the names in the order presented. *)
Lemma enumerate_names hmodule resource_kind lParam names result w :
  enumerate (fun name => callback false hmodule resource_kind name lParam)
            names result w =
  mkRun (Returned (true, result ++ map ItemName names)) w [].
Proof.
  revert result. induction names as [|name rest IH]; intros result.
  - cbn [enumerate map]. unfold ret. now rewrite app_nil_r.
  - cbn [enumerate map]. rewrite bind_run. unfold attempt, callback, ret.
    cbn [out world events]. unfold after. rewrite IH.
    cbn [out world events app]. now rewrite <- app_assoc.
Qed.

(** When exceptions of the callback do not propagate, the loop returns. *)
Lemma enumerate_returns cb names result w :
  callback_exceptions_propagate = false ->
  returned (out (enumerate cb names result w)) = true.
Proof.
  intros Hdrop. revert result w.
  induction names as [|name rest IH]; intros result w; [reflexivity |].
  cbn [enumerate]. rewrite bind_run. unfold attempt. cbn [out world events].
  unfold after. cbn [out].
  destruct (out (cb name result w)) as [[[|] result']|e].
  - apply IH.
  - reflexivity.
  - now rewrite Hdrop.
Qed.

End MoreFacts.

Section MoreProperties.
Context {W : Type} `{Platform W}.

(** X1: when the library cannot be loaded (null handle), [getResourcesFromDLL]
    raises [WinError] for the last error of the system and makes no other
    call: nothing is enumerated and nothing is released. *)
Theorem X1_load_failure_raises_WinError
    (filename : PyPath) (resource_kind : Z) (with_data : bool) (w w1 : W) :
  k32_LoadLibraryEx (filename_charset filename) filename 0 load_flags w
    = (FRet 0, w1) ->
  getResourcesFromDLL filename resource_kind with_data w =
  mkRun (Raised (WinError (GetLastError w1))) w1
        [EvLoadLibraryEx (filename_charset filename) filename 0 load_flags].
Proof.
  intros Hload. unfold getResourcesFromDLL.
  now rewrite (bind_call_ret _ _ _ _ _ _ Hload).
Qed.

(** X2: without data, [getResourcesFromDLL] returns exactly the names the
    system presents, in the order presented, with three calls: load,
    enumerate, release. *)
Theorem X2_names_only_listing
    (filename : PyPath) (resource_kind : Z) (w : W)
    (hmodule released : Z) (names : list ResName) (w1 w2 w3 : W) :
  k32_LoadLibraryEx (filename_charset filename) filename 0 load_flags w
    = (FRet hmodule, w1) ->
  hmodule <> 0 ->
  k32_EnumResourceNames Narrow hmodule resource_kind w1 = (FRet names, w2) ->
  k32_FreeLibrary hmodule w2 = (FRet released, w3) ->
  getResourcesFromDLL filename resource_kind false w =
  mkRun (Returned (map ItemName names)) w3
        [EvLoadLibraryEx (filename_charset filename) filename 0 load_flags;
         EvEnumResourceNames Narrow hmodule resource_kind;
         EvFreeLibrary hmodule].
Proof.
  intros Hload Hne Henum Hfree.
  assert (Hloop :
    enumerate (fun name => callback false hmodule resource_kind name PyNone)
              names [] w2 =
    mkRun (Returned (true, map ItemName names)) w2 [])
    by apply enumerate_names.
  rewrite (getResourcesFromDLL_run_ok filename resource_kind false w hmodule
             names true (map ItemName names) released w1 w2 w3 Hload Hne Henum).
  - now rewrite Hloop.
  - now rewrite Hloop.
  - now rewrite Hloop.
Qed.

(** X3: without data, [getResourcesFromDLL] only loads, enumerates and
    releases: it never resolves, measures, loads, locks, copies or frees a
    resource block, whatever the system answers. *)
Theorem X3_names_only_makes_no_resource_call
    (filename : PyPath) (resource_kind : Z) (w : W) :
  Forall library_call (events (getResourcesFromDLL filename resource_kind false w)).
Proof.
  revert w. change (emits library_call
                      (getResourcesFromDLL filename resource_kind false)).
  unfold getResourcesFromDLL, EnumResourceNames.
  apply emits_bind; [apply emits_call; exact I | intros hmodule].
  destruct (hmodule =? 0); [apply emits_raise_WinError |].
  apply emits_bind.
  - apply emits_bind; [apply emits_call; exact I | intros names].
    apply enumerate_emits. intros name res. apply emits_ret.
  - intros r.
    apply emits_bind; [apply emits_call; exact I | intros _; apply emits_ret].
Qed.

(** X4: whenever [getResourcesFromDLL] returns, the trace is the load, the
    enumeration call, the calls of the callbacks and the release of the
    library handle: the handle is released exactly once, as the last call. *)
Theorem X4_return_releases_library_once
    (filename : PyPath) (resource_kind : Z) (with_data : bool) (w : W)
    (items : list Item) :
  out (getResourcesFromDLL filename resource_kind with_data w)
    = Returned items ->
  exists hmodule middle,
    events (getResourcesFromDLL filename resource_kind with_data w) =
      [EvLoadLibraryEx (filename_charset filename) filename 0 load_flags;
       EvEnumResourceNames Narrow hmodule resource_kind]
      ++ middle ++ [EvFreeLibrary hmodule] /\
    Forall callback_call middle /\
    count_events is_any_FreeLibrary
      (events (getResourcesFromDLL filename resource_kind with_data w)) = 1%nat.
Proof.
  unfold getResourcesFromDLL. intros Hout.
  destruct (k32_LoadLibraryEx (filename_charset filename) filename 0
              load_flags w)
    as [[hmodule|tag] w1] eqn:Hload;
    [| rewrite (bind_call_raise _ _ _ _ _ _ Hload) in Hout; discriminate].
  rewrite (bind_call_ret _ _ _ _ _ _ Hload) in Hout |- *.
  destruct (hmodule =? 0); [discriminate |].
  rewrite bind_run in Hout |- *.
  set (en := EnumResourceNames hmodule resource_kind (callback with_data)
               PyNone [] w1) in *.
  destruct (out en) as [r|e] eqn:Hen; [| discriminate].
  destruct (k32_FreeLibrary hmodule (world en)) as [[released|tag] w4] eqn:Hfree;
    [| rewrite (bind_call_raise _ _ _ _ _ _ Hfree) in Hout; discriminate].
  rewrite (bind_call_ret _ _ _ _ _ _ Hfree). clear Hout.
  unfold after, ret. cbn [out world events app].
  assert (Hev : exists middle,
    events en = EvEnumResourceNames Narrow hmodule resource_kind :: middle /\
    Forall callback_call middle).
  { unfold en, EnumResourceNames. rewrite events_bind, events_call.
    eexists. split; [reflexivity |].
    destruct (out (call _ _ w1)) as [names|e]; [| constructor].
    apply enumerate_emits. intros name res. apply callback_emits_calls. }
  destruct Hev as [middle [Hev Hmiddle]]. rewrite Hev.
  exists hmodule, middle. split; [| split].
  - reflexivity.
  - exact Hmiddle.
  - change (count_events is_any_FreeLibrary
              ([EvLoadLibraryEx (filename_charset filename) filename 0
                  load_flags;
                EvEnumResourceNames Narrow hmodule resource_kind]
               ++ middle ++ [EvFreeLibrary hmodule]) = 1%nat).
    rewrite !count_events_app.
    rewrite (count_events_none is_any_FreeLibrary middle).
    + reflexivity.
    + eapply Forall_impl; [exact Hmiddle |].
      intros e He. now destruct e.
Qed.

(** X5: when exceptions of the callback do not leave the enumeration call (the
    behaviour of the ctypes binding), a loaded library is released exactly
    once as soon as the enumeration call itself returns, also when the
    extraction of a resource failed. *)
Theorem X5_dropped_callback_errors_still_release
    (filename : PyPath) (resource_kind : Z) (with_data : bool) (w : W)
    (hmodule : Z) (names : list ResName) (w1 w2 : W) :
  callback_exceptions_propagate = false ->
  k32_LoadLibraryEx (filename_charset filename) filename 0 load_flags w
    = (FRet hmodule, w1) ->
  hmodule <> 0 ->
  k32_EnumResourceNames Narrow hmodule resource_kind w1 = (FRet names, w2) ->
  exists middle,
    events (getResourcesFromDLL filename resource_kind with_data w) =
      [EvLoadLibraryEx (filename_charset filename) filename 0 load_flags;
       EvEnumResourceNames Narrow hmodule resource_kind]
      ++ middle ++ [EvFreeLibrary hmodule] /\
    count_events is_any_FreeLibrary middle = 0%nat.
Proof.
  intros Hdrop Hload Hne Henum. unfold getResourcesFromDLL, EnumResourceNames.
  rewrite (bind_call_ret _ _ _ _ _ _ Hload).
  apply Z.eqb_neq in Hne. rewrite Hne.
  rewrite bind_run, (bind_call_ret _ _ _ _ _ _ Henum).
  set (loop := enumerate _ names [] w2).
  pose proof (enumerate_returns
                (fun name => callback with_data hmodule resource_kind name
                               PyNone) names [] w2 Hdrop) as Hret.
  fold loop in Hret.
  exists (events loop). split.
  - unfold after at 2. cbn [out world events].
    destruct (out loop) as [r|e]; [| discriminate].
    unfold after. cbn [out world events app].
    rewrite events_bind, events_call.
    destruct (out (call _ _ _)); cbn [ret events]; now rewrite ?app_nil_r.
  - apply count_events_none.
    eapply Forall_impl;
      [apply (enumerate_emits callback_call); intros name res;
       apply callback_emits_calls |].
    intros e He. now destruct e.
Qed.

(** X6: [deleteWindowsResources] returns only for the empty list, and then
    with exactly two calls: the session is opened and committed at once. *)
Theorem X6_delete_returns_only_for_empty_list
    (filename : PyPath) (resource_kind : Z) (res_names : list ResName)
    (w : W) :
  returned (out (deleteWindowsResources filename resource_kind res_names w))
    = true ->
  res_names = [] /\
  exists update_handle,
    events (deleteWindowsResources filename resource_kind res_names w) =
      [EvBeginUpdateResource (filename_charset filename) filename false;
       EvEndUpdateResource Narrow update_handle false].
Proof.
  unfold deleteWindowsResources. rewrite bind_run, _openFileWindowsResources_run.
  destruct (k32_BeginUpdateResource (filename_charset filename) filename
              false w)
    as [[h|tag] w1]; cbn [out world events returned]; [| intros [=]].
  destruct (h =? 0); cbn [out world events returned]; [intros [=] |].
  destruct res_names as [|name rest].
  - cbn [delete_loop]. rewrite bind_ret.
    rewrite bind_run, _closeFileWindowsResources_run.
    destruct (k32_EndUpdateResource Narrow h false w1) as [[r|tag] w2];
      unfold after, ret; cbn [out world events returned app];
      [| intros [=]].
    destruct (r =? 0); cbn [out world events returned app]; [intros [=] |].
    intros _. split; [reflexivity |]. now exists h.
  - rewrite bind_run, delete_loop_cons_run. cbv zeta. cbn [out world events].
    unfold after. cbn [out].
    destruct (out (_updateResource h resource_kind name 0 None w1));
      cbn [returned]; intros [=].
Qed.

(** X7: when the update session cannot be opened (null handle),
    [addResourceToFile] and [deleteWindowsResources] raise [WinError] for the
    last error and make no staging and no commit call. *)
Theorem X7_open_failure_makes_no_further_call
    (filename : PyPath) (data : option (list Byte.byte)) (resource_kind : Z)
    (res_name : ResName) (res_names : list ResName) (w w1 : W) :
  k32_BeginUpdateResource (filename_charset filename) filename false w
    = (FRet 0, w1) ->
  addResourceToFile filename data resource_kind res_name w =
    mkRun (Raised (WinError (GetLastError w1))) w1
          [EvBeginUpdateResource (filename_charset filename) filename false]
  /\
  deleteWindowsResources filename resource_kind res_names w =
    mkRun (Raised (WinError (GetLastError w1))) w1
          [EvBeginUpdateResource (filename_charset filename) filename false].
Proof.
  intros Hbegin. unfold addResourceToFile, deleteWindowsResources.
  rewrite !bind_run, !_openFileWindowsResources_run, Hbegin.
  split; reflexivity.
Qed.

(** X8: when the staging call of [addResourceToFile] is refused, the function
    raises [WinError] right after it: the commit call is not made, and the
    session that was opened is neither committed nor discarded. *)
Theorem X8_add_refused_staging_skips_commit
    (target_filename : PyPath) (data : option (list Byte.byte))
    (resource_kind : Z) (res_name : ResName) (w : W)
    (update_handle : Z) (w1 w2 : W) :
  k32_BeginUpdateResource (filename_charset target_filename) target_filename
    false w = (FRet update_handle, w1) ->
  update_handle <> 0 ->
  k32_UpdateResource Narrow update_handle resource_kind res_name 0 data
    (payload_size data) w1 = (FRet 0, w2) ->
  addResourceToFile target_filename data resource_kind res_name w =
  mkRun (Raised (WinError (GetLastError w2))) w2
        [EvBeginUpdateResource (filename_charset target_filename)
           target_filename false;
         EvUpdateResource Narrow update_handle resource_kind res_name 0 data
           (payload_size data)].
Proof.
  intros Hbegin Hh Hupd. apply Z.eqb_neq in Hh.
  unfold addResourceToFile.
  rewrite bind_run, _openFileWindowsResources_run, Hbegin, Hh.
  cbn [out world events].
  rewrite bind_run, _updateResource_run, Hupd.
  reflexivity.
Qed.

End MoreProperties.

(** An outcome that is a value or an exception of the operating system. *)
Definition raises_only_os_errors {A} (o : Outcome A) : Prop :=
  match o with
  | Returned _ => True
  | Raised e => os_error e
  end.

(** The call is made on no update handle, or on [h]. *)
Definition on_handle (h : Z) (e : Event) : Prop :=
  session_handle e = None \/ session_handle e = Some h.

Section MoreProperties2.
Context {W : Type} `{Platform W}.

Lemma callback_yields_any with_data hModule lpType lpName lParam result :
  yields (fun _ => True) os_error
         (callback with_data hModule lpType lpName lParam result).
Proof.
  unfold callback. destruct with_data; [| now apply yields_ret].
  eapply yields_bind; [apply yields_call | intros hResource _].
  eapply yields_bind; [apply yields_call | intros size _].
  eapply yields_bind; [apply yields_call | intros hData _].
  eapply yields_bind with (Q := fun _ => True);
    [| intros; now apply yields_ret].
  apply yields_try_finally; [| apply yields_call].
  eapply yields_bind; [apply yields_call | intros ptr _].
  eapply yields_bind; [apply yields_call | intros s _].
  now apply yields_ret.
Qed.

Lemma getResourcesFromDLL_yields_any filename resource_kind with_data :
  yields (fun _ => True) os_error
         (getResourcesFromDLL filename resource_kind with_data).
Proof.
  unfold getResourcesFromDLL, EnumResourceNames.
  eapply yields_bind; [apply yields_call | intros hmodule _].
  destruct (hmodule =? 0); [apply yields_raise_WinError |].
  eapply yields_bind with (Q := fun _ => True).
  - eapply yields_bind; [apply yields_call | intros names _].
    apply (enumerate_yields (fun _ => True)); [| exact I].
    intros name res _.
    eapply yields_weaken; [apply callback_yields_any | auto | auto].
  - intros r _.
    eapply yields_bind; [apply yields_call | intros _ _].
    now apply yields_ret.
Qed.

(** X9: [getResourcesFromDLL] and [copyResourcesFromFileToFile] raise
    nothing but errors of the operating system ([WinError]) or of a foreign
    call; in particular the tuple unpacking and the assertion in the copy
    never fail.  Both begin with the extraction, whose first statement imports
    [ctypes.wintypes], so the names the update helpers read afterwards are
    bound. *)
Theorem X9_only_os_errors_are_raised
    (filename target : PyPath) (resource_kind : Z) (with_data : bool) (w : W) :
  raises_only_os_errors
    (out (getResourcesFromDLL filename resource_kind with_data w)) /\
  raises_only_os_errors
    (out (copyResourcesFromFileToFile filename target resource_kind w)).
Proof.
  assert (Hweak : forall A (m : M W A),
            yields (fun _ => True) os_error m ->
            forall w, raises_only_os_errors (out (m w))).
  { intros A m Hm w'. specialize (Hm w'). unfold raises_only_os_errors.
    now destruct (out (m w')). }
  split; apply Hweak.
  - apply getResourcesFromDLL_yields_any.
  - apply copyResourcesFromFileToFile_yields.
Qed.

(** The loop of the copy stages the items in order and stops at the first
    staging call that fails. *)
Lemma copy_loop_stages_prefix update_handle resource_kind res_data w :
  Forall (item_of_kind resource_kind) res_data ->
  exists n,
    events (copy_loop update_handle resource_kind res_data w) =
      firstn n (map (stage_event update_handle resource_kind) res_data) /\
    (returned (out (copy_loop update_handle resource_kind res_data w)) = true ->
     events (copy_loop update_handle resource_kind res_data w) =
       map (stage_event update_handle resource_kind) res_data).
Proof.
  intros Hall. revert w.
  induction Hall as [|[name|kind name data] rest Hit _ IH]; intros w.
  - exists 0%nat. split; reflexivity.
  - destruct Hit.
  - cbn [item_of_kind] in Hit. subst kind.
    cbn [copy_loop map stage_event]. rewrite Z.eqb_refl. cbn [negb].
    rewrite bind_run, _updateResource_run. cbn [payload_size].
    destruct (k32_UpdateResource Narrow update_handle resource_kind name 0
                (Some data) (Z.of_nat (length data)) w)
      as [[r|tag] w1]; cbn [out world events];
      [destruct (r =? 0) |]; cbn [out world events].
    + exists 1%nat. split; [reflexivity | intros [=]].
    + destruct (IH w1) as [n [Hev Hret]]. exists (S n).
      unfold after. cbn [out world events app firstn].
      split; [now rewrite Hev | intros Hr; now rewrite (Hret Hr)].
    + exists 1%nat. split; [reflexivity | intros [=]].
Qed.

(** X10: [copyResourcesFromFileToFile] commits only after it has staged every
    extracted item: whenever the commit call is made, the calls after the
    extraction are the opening of one session, one staging call per item in
    extraction order (same kind, language 0, the extracted bytes with their
    length), and the commit on the same handle. *)
Theorem X10_copy_commits_only_after_staging_all
    (source_filename target_filename : PyPath) (resource_kind : Z) (w : W)
    (res_data : list Item) :
  out (getResourcesFromDLL source_filename resource_kind true w)
    = Returned res_data ->
  (0 < count_events is_commit
         (events (copyResourcesFromFileToFile source_filename target_filename
                    resource_kind w)))%nat ->
  exists update_handle,
    events (copyResourcesFromFileToFile source_filename target_filename
              resource_kind w) =
      events (getResourcesFromDLL source_filename resource_kind true w)
      ++ [EvBeginUpdateResource (filename_charset target_filename)
            target_filename false]
      ++ map (stage_event update_handle resource_kind) res_data
      ++ [EvEndUpdateResource Narrow update_handle false].
Proof.
  intros Hg.
  pose proof (getResourcesFromDLL_yields source_filename resource_kind w) as Hk.
  rewrite Hg in Hk.
  assert (Hq : count_events is_commit
                 (events (getResourcesFromDLL source_filename resource_kind
                            true w)) = 0%nat).
  { apply count_events_none.
    eapply Forall_impl;
      [apply (getResourcesFromDLL_emits source_filename resource_kind true w) |].
    intros e He. now destruct e. }
  unfold copyResourcesFromFileToFile. rewrite bind_run, Hg.
  destruct res_data as [|it rest].
  { unfold after, ret. cbn [out world events].
    rewrite app_nil_r, Hq. intros Hc. inversion Hc. }
  set (items := it :: rest) in *.
  rewrite bind_run, _openFileWindowsResources_run.
  destruct (k32_BeginUpdateResource (filename_charset target_filename)
              target_filename false _)
    as [[h|tag] w1]; cbn [out world events];
    [destruct (h =? 0) |]; unfold after at 1; cbn [out world events].
  - rewrite count_events_app, Hq. intros Hc. inversion Hc.
  - destruct (copy_loop_stages_prefix h resource_kind items w1 Hk)
      as [n [Hev Hret]].
    rewrite bind_run.
    assert (Hstage : count_events is_commit
                       (events (copy_loop h resource_kind items w1)) = 0%nat).
    { apply count_events_none. rewrite Hev.
      apply Forall_take, List.Forall_map, List.Forall_forall.
      intros [name|kind name data] _; reflexivity. }
    destruct (out (copy_loop h resource_kind items w1)) as [[]|e] eqn:Hloop.
    + rewrite (Hret eq_refl) in *.
      rewrite bind_run, _closeFileWindowsResources_run.
      destruct (k32_EndUpdateResource Narrow h false _) as [[r|tag] w2];
        unfold after, ret; cbn [out world events app];
        [destruct (r =? 0) |]; cbn [out world events app];
        intros _; exists h; now rewrite ?app_nil_r.
    + unfold after. cbn [out world events].
      rewrite count_events_app, Hq. cbn [app].
      change (EvBeginUpdateResource (filename_charset target_filename)
                target_filename false
              :: events (copy_loop h resource_kind items w1))
        with ([EvBeginUpdateResource (filename_charset target_filename)
                 target_filename false]
              ++ events (copy_loop h resource_kind items w1)).
      rewrite count_events_app, Hstage. intros Hc. inversion Hc.
  - rewrite count_events_app, Hq. intros Hc. inversion Hc.
Qed.

End MoreProperties2.

Section Handles.
Context {W : Type} `{Platform W}.

Lemma single_handle_bind {B} (m : M W Z) (k : Z -> M W B) :
  emits (fun e => session_handle e = None) m ->
  (forall h, emits (on_handle h) (k h)) ->
  forall w, exists h, Forall (on_handle h) (events (bind m k w)).
Proof.
  intros Hm Hk w. rewrite bind_run.
  destruct (out (m w)) as [h|e].
  - exists h. unfold after. cbn [events]. apply Forall_app. split.
    + eapply Forall_impl; [apply Hm | intros e He; now left].
    + apply Hk.
  - exists 0. cbn [events].
    eapply Forall_impl; [apply Hm | intros e' He; now left].
Qed.

Lemma _openFileWindowsResources_no_handle filename :
  emits (fun e => session_handle e = None) (_openFileWindowsResources filename).
Proof.
  unfold _openFileWindowsResources.
  apply emits_bind; [apply emits_call; reflexivity | intros h].
  destruct (negb (truthy (PyInt h)));
    [apply emits_raise_WinError | apply emits_ret].
Qed.

Lemma _updateResource_on_handle update_handle resource_kind res_name lang data :
  emits (on_handle update_handle)
        (_updateResource update_handle resource_kind res_name lang data).
Proof.
  unfold _updateResource.
  apply emits_bind; [apply emits_call; now right | intros r].
  destruct (negb (truthy (PyInt r)));
    [apply emits_raise_WinError | apply emits_ret].
Qed.

Lemma _closeFileWindowsResources_on_handle update_handle :
  emits (on_handle update_handle) (_closeFileWindowsResources update_handle).
Proof.
  unfold _closeFileWindowsResources.
  apply emits_bind; [apply emits_call; now right | intros r].
  destruct (negb (truthy (PyInt r)));
    [apply emits_raise_WinError | apply emits_ret].
Qed.

Lemma delete_loop_on_handle update_handle resource_kind res_names :
  emits (on_handle update_handle)
        (delete_loop update_handle resource_kind res_names).
Proof.
  induction res_names as [|name rest IH]; cbn [delete_loop].
  - apply emits_ret.
  - apply emits_bind; [apply _updateResource_on_handle | intros r].
    destruct (negb (truthy r)); [apply emits_raise_WinError | exact IH].
Qed.

Lemma copy_loop_on_handle update_handle resource_kind res_data :
  emits (on_handle update_handle)
        (copy_loop update_handle resource_kind res_data).
Proof.
  induction res_data as [|[name|kind name data] rest IH]; cbn [copy_loop].
  - apply emits_ret.
  - apply emits_raise.
  - destruct (negb (kind =? resource_kind)); [apply emits_raise |].
    apply emits_bind; [apply _updateResource_on_handle | intros _; exact IH].
Qed.

(** X11: each of the three composed operations works on a single update
    handle: all the staging and commit calls of one run carry one and the
    same handle. *)
Theorem X11_single_update_handle
    (filename target : PyPath) (resource_kind : Z) (res_name : ResName)
    (res_names : list ResName) (data : option (list Byte.byte)) (w : W) :
  (exists h, Forall (on_handle h)
       (events (addResourceToFile filename data resource_kind res_name w))) /\
  (exists h, Forall (on_handle h)
       (events (deleteWindowsResources filename resource_kind res_names w))) /\
  (exists h, Forall (on_handle h)
       (events (copyResourcesFromFileToFile filename target resource_kind w))).
Proof.
  split; [| split].
  - apply single_handle_bind; [apply _openFileWindowsResources_no_handle |].
    intros h.
    apply emits_bind; [apply _updateResource_on_handle | intros _].
    apply emits_bind; [apply _closeFileWindowsResources_on_handle | intros _].
    apply emits_ret.
  - apply single_handle_bind; [apply _openFileWindowsResources_no_handle |].
    intros h.
    apply emits_bind; [apply delete_loop_on_handle | intros _].
    apply emits_bind; [apply _closeFileWindowsResources_on_handle | intros _].
    apply emits_ret.
  - unfold copyResourcesFromFileToFile. rewrite bind_run.
    assert (Hg : Forall (fun e => session_handle e = None)
                   (events (getResourcesFromDLL filename resource_kind true w))).
    { eapply Forall_impl;
        [apply (getResourcesFromDLL_emits filename resource_kind true w) |].
      intros e He. now destruct e. }
    destruct (out (getResourcesFromDLL filename resource_kind true w))
      as [[|it rest]|e].
    + exists 0. unfold after, ret. cbn [events]. rewrite app_nil_r.
      eapply Forall_impl; [exact Hg | intros e He; now left].
    + destruct (single_handle_bind (_openFileWindowsResources target)
                  (fun update_handle =>
                     bind (copy_loop update_handle resource_kind (it :: rest))
                       (fun _ =>
                          bind (_closeFileWindowsResources update_handle)
                            (fun _ => ret PyNone)))
                  (_openFileWindowsResources_no_handle target))
        with (w := world (getResourcesFromDLL filename resource_kind true w))
        as [h Hh].
      * intros h.
        apply emits_bind; [apply copy_loop_on_handle | intros _].
        apply emits_bind;
          [apply _closeFileWindowsResources_on_handle | intros _].
        apply emits_ret.
      * exists h. unfold after. cbn [events]. apply Forall_app. split.
        -- eapply Forall_impl; [exact Hg | intros e He; now left].
        -- exact Hh.
    + exists 0. cbn [events].
      eapply Forall_impl; [exact Hg | intros e' He; now left].
Qed.

End Handles.

(** ** Further properties on the reference platform *)

Section ReferenceProperties.
Import Reference.
Variables py3 propagate : bool.
Abbreviation P := (platform py3 propagate).

(** The whole effect of [addResourceToFile] on the files and the locks. *)
Lemma addResourceToFile_disk target data kind name dir w :
  disk w !! path_text target = Some dir ->
  path_text target ∉ locked w ->
  let r := @addResourceToFile World P target data kind name w in
  out r = Returned PyNone /\
  disk (world r) =
    <[path_text target := apply_staged dir (mkStaged kind name 0 data)]>
      (disk w) /\
  locked (world r) = locked w.
Proof.
  intros Hdisk Hfree r. subst r.
  set (h := fresh w).
  set (path := path_text target).
  set (w1 := mkWorld (disk w) (libs w) (mapped w)
               (<[h := mkSession path dir []]> (sessions w))
               ({[path]} ∪ locked w) h (last_error w)).
  set (op := mkStaged kind name 0 data).
  set (w2 := mkWorld (disk w1) (libs w1) (mapped w1)
               (<[h := mkSession path dir [op]]> (sessions w1))
               (locked w1) (next_handle w1) (last_error w1)).
  assert (Hbegin : ref_BeginUpdateResource (@filename_charset World P target)
                     target false w = (FRet h, w1)).
  { unfold ref_BeginUpdateResource. cbv zeta. rewrite Hdisk.
    now rewrite bool_decide_eq_false_2 by exact Hfree. }
  assert (Hupd : ref_UpdateResource Narrow h kind name 0 data
                   (payload_size data) w1 = (FRet 1, w2)).
  { unfold ref_UpdateResource. cbn [sessions w1].
    rewrite lookup_insert_eq. cbn [u_path u_base u_staged app].
    destruct data as [d|]; cbn [payload_size option_map];
      [now rewrite read_payload_whole | reflexivity]. }
  assert (Hend : exists w3,
    ref_EndUpdateResource Narrow h false w2 = (FRet 1, w3) /\
    disk w3 = <[path := apply_staged dir op]> (disk w) /\
    locked w3 = ({[path]} ∪ locked w) ∖ {[path]}).
  { unfold ref_EndUpdateResource. cbn [sessions w2].
    rewrite lookup_insert_eq. eexists. split; [reflexivity |].
    split; reflexivity. }
  destruct Hend as [w3 [Hend [Hdisk3 Hlock3]]].
  rewrite (@addResourceToFile_run_ok World P target data kind name w
             h 1 1 w1 w2 w3 Hbegin (fresh_not_null w) Hupd ltac:(lia) Hend
             ltac:(lia)).
  cbn [out world]. split; [reflexivity | split; [exact Hdisk3 |]].
  rewrite Hlock3. apply set_eq. intros x.
  rewrite elem_of_difference, elem_of_union, elem_of_singleton.
  split.
  - intros [[Hx|Hx] Hne]; [contradiction | exact Hx].
  - intros Hx. split; [now right | intros ->; contradiction].
Qed.

Lemma find_other {A} (p q : A -> bool) (l : list A) :
  (forall e, p e = true -> q e = false) ->
  List.find p (List.filter (fun e => negb (q e)) l) = List.find p l.
Proof.
  intros Hpq. induction l as [|a l IH]; [reflexivity |].
  cbn [List.filter List.find].
  destruct (q a) eqn:Hq; cbn [negb List.find].
  - destruct (p a) eqn:Hp; [| exact IH].
    rewrite (Hpq a Hp) in Hq. discriminate.
  - now rewrite IH.
Qed.

Lemma find_app_last {A} (p : A -> bool) (l : list A) (x : A) :
  p x = false -> List.find p (l ++ [x]) = List.find p l.
Proof.
  intros Hx. induction l as [|a l IH]; cbn [app List.find].
  - now rewrite Hx.
  - now destruct (p a).
Qed.

Lemma same_name_other kind name kind' name' e :
  kind' <> kind \/ name' <> name ->
  same_name kind' name' e = true -> same_key kind name 0 e = false.
Proof.
  intros Hne Hp. unfold same_key, same_name in *.
  apply andb_true_iff in Hp as [Hk Hn].
  apply Z.eqb_eq in Hk. apply bool_decide_eq_true_1 in Hn.
  destruct Hne as [Hne|Hne].
  - replace (e_kind e =? kind) with false; [reflexivity |].
    symmetry. apply Z.eqb_neq. congruence.
  - rewrite (bool_decide_eq_false_2 (e_name e = name)) by congruence.
    now rewrite andb_false_r.
Qed.

(** Staging one operation does not change what another (kind, name)
    resolves to. *)
Lemma apply_staged_other dir kind name data kind' name' :
  kind' <> kind \/ name' <> name ->
  find_entry kind' name' (apply_staged dir (mkStaged kind name 0 data)) =
  find_entry kind' name' dir.
Proof.
  intros Hne.
  assert (Hkey : forall e, same_key kind' name' 0 e = true ->
                           same_key kind name 0 e = false).
  { intros e He. apply (same_name_other kind name kind' name' e Hne).
    unfold same_key in He. now apply andb_true_iff in He as [He _]. }
  assert (Hname : forall e, same_name kind' name' e = true ->
                            same_key kind name 0 e = false)
    by (intros e; apply same_name_other; exact Hne).
  unfold find_entry, apply_staged. cbn [s_kind s_name s_lang s_data].
  destruct data as [d|].
  - assert (Hnew : same_name kind' name' (mkEntry kind name 0 d) = false).
    { destruct (same_name kind' name' (mkEntry kind name 0 d)) eqn:Hs;
        [| reflexivity].
      apply Hname in Hs. unfold same_key, same_name in Hs. cbn in Hs.
      rewrite !Z.eqb_refl in Hs.
      now rewrite bool_decide_eq_true_2 in Hs. }
    rewrite !find_app_last, !find_other; auto.
    unfold same_key. now rewrite Hnew.
  - now rewrite !find_other.
Qed.

(** X12: on the reference platform, for a file whose resources of the
    requested kind have integer identifiers, [getResourcesFromDLL] with data
    returns exactly those resources: one triple per identifier, in directory
    order, with the whole payload the identifier resolves to; and it leaves
    every file as it was. *)
Theorem X12_extraction_returns_the_resources_of_the_kind
    (filename : PyPath) (kind : Z) (dir : list Entry) (w : World) :
  disk w !! path_text filename = Some dir ->
  resource_id kind = true ->
  integer_named kind dir = true ->
  let r := @getResourcesFromDLL World P filename kind true w in
  out r =
    Returned (map (fun name => ItemData kind name (entry_data kind name dir))
                  (names_of_kind kind dir)) /\
  disk (world r) = disk w.
Proof.
  intros Hdisk Hkind Hdir r. split.
  - unfold r.
    rewrite (getResourcesFromDLL_extracts py3 propagate filename kind dir w
               Hdisk (resource_id_passes kind Hkind)).
    now rewrite presented_names.
  - apply (@getResourcesFromDLL_keeps World _ P disk
             (ref_read_only py3 propagate)).
Qed.

(** X13: on the reference platform, adding (or deleting) one resource leaves
    every other file untouched and, in the target, leaves every other
    (kind, name) resolving to the entry it resolved to before. *)
Theorem X13_add_leaves_other_resources_alone
    (target : PyPath) (data : option (list Byte.byte)) (kind : Z)
    (name : ResName) (dir : list Entry) (w : World) :
  disk w !! path_text target = Some dir ->
  path_text target ∉ locked w ->
  let r := @addResourceToFile World P target data kind name w in
  (forall other, other <> path_text target ->
                 disk (world r) !! other = disk w !! other) /\
  exists dir',
    disk (world r) !! path_text target = Some dir' /\
    forall kind' name',
      kind' <> kind \/ name' <> name ->
      find_entry kind' name' dir' = find_entry kind' name' dir.
Proof.
  intros Hdisk Hfree r.
  destruct (addResourceToFile_disk target data kind name dir w Hdisk Hfree)
    as [_ [Hd _]].
  fold r in Hd. rewrite Hd. split.
  - intros other Hother. now rewrite lookup_insert_ne.
  - eexists. split; [apply lookup_insert_eq |].
    intros kind' name' Hne. now apply apply_staged_other.
Qed.

End ReferenceProperties.

Section CopyRuns.
Context {W : Type} `{Platform W}.

Lemma addResourceToFile_open_failure target_filename data resource_kind
    res_name w w1 :
  k32_BeginUpdateResource (filename_charset target_filename) target_filename
    false w = (FRet 0, w1) ->
  addResourceToFile target_filename data resource_kind res_name w =
  mkRun (Raised (WinError (GetLastError w1))) w1
        [EvBeginUpdateResource (filename_charset target_filename)
           target_filename false].
Proof.
  intros Hbegin. unfold addResourceToFile.
  now rewrite bind_run, _openFileWindowsResources_run, Hbegin.
Qed.

(** [copyResourcesFromFileToFile] when something was extracted and every call
    of the session is accepted. *)
Lemma copyResourcesFromFileToFile_run_ok source_filename target_filename
    resource_kind w it rest update_handle committed w1 w3 :
  let g := getResourcesFromDLL source_filename resource_kind true w in
  out g = Returned (it :: rest) ->
  k32_BeginUpdateResource (filename_charset target_filename) target_filename
    false (world g) = (FRet update_handle, w1) ->
  update_handle <> 0 ->
  let loop := copy_loop update_handle resource_kind (it :: rest) w1 in
  out loop = Returned tt ->
  k32_EndUpdateResource Narrow update_handle false (world loop)
    = (FRet committed, w3) ->
  committed <> 0 ->
  let r := copyResourcesFromFileToFile source_filename target_filename
             resource_kind w in
  out r = Returned PyNone /\ world r = w3.
Proof.
  intros g Hg Hbegin Hh loop Hloop Hend Hc r. subst r.
  apply Z.eqb_neq in Hh, Hc.
  unfold copyResourcesFromFileToFile. rewrite bind_run. fold g. rewrite Hg.
  rewrite bind_run, _openFileWindowsResources_run, Hbegin, Hh.
  cbn [out world events]. rewrite bind_run. fold loop. rewrite Hloop.
  rewrite bind_run, _closeFileWindowsResources_run, Hend, Hc.
  split; reflexivity.
Qed.

End CopyRuns.

Section ReferenceCopy.
Import Reference.
Variables py3 propagate : bool.
Abbreviation P := (platform py3 propagate).

Lemma ref_read_only_locks :
  @ReadOnlyQueries World _ P (fun w => (disk w, locked w)).
Proof.
  split; intros; cbn [k32_LoadLibraryEx k32_EnumResourceNames k32_FreeLibrary
    k32_FindResource k32_SizeofResource k32_LoadResource k32_LockResource
    ctypes_string_at k32_FreeResource platform].
  - unfold ref_LoadLibraryEx. now destruct (disk w !! path_text fn).
  - unfold ref_EnumResourceNames.
    destruct (negb (int_argument_ok kind)); [reflexivity |].
    destruct (libs w !! h); [| reflexivity].
    now destruct (names_of_kind kind l).
  - unfold ref_FreeLibrary. now destruct (libs w !! h).
  - unfold ref_FindResource. destruct (libs w !! h); [| reflexivity].
    now destruct (find_entry kind name l).
  - unfold ref_SizeofResource. now destruct (block r w).
  - unfold ref_LoadResource. now destruct (block r w).
  - unfold ref_LockResource. now destruct (block h w).
  - unfold ref_string_at. destruct (size =? 0); [reflexivity |].
    destruct (mapped w !! ptr); [| reflexivity].
    now destruct ((0 <? size) && (size <=? Z.of_nat (length l))).
  - reflexivity.
Qed.

(** The names enumerated for a kind are the names of its entries. *)
Lemma in_names_of_kind kind dir name :
  In name (names_of_kind kind dir) <->
  exists e, In e dir /\ e_kind e = kind /\ e_name e = name.
Proof.
  unfold names_of_kind.
  rewrite <- list_elem_of_In, elem_of_remove_dups, list_elem_of_In, in_map_iff.
  split.
  - intros [e [Hname Hin]]. apply filter_In in Hin as [Hin Hkind].
    apply Z.eqb_eq in Hkind. now exists e.
  - intros [e [Hin [Hkind Hname]]]. exists e. split; [exact Hname |].
    apply filter_In. split; [exact Hin | now apply Z.eqb_eq].
Qed.

Lemma names_of_kind_NoDup kind dir : NoDup (names_of_kind kind dir).
Proof. unfold names_of_kind. apply NoDup_remove_dups. Qed.

(** What the enumeration without data returns on the reference platform:
    the names as the callback received them. *)
Lemma getResourcesFromDLL_lists filename kind dir w :
  disk w !! path_text filename = Some dir ->
  int_argument_ok kind = true ->
  out (@getResourcesFromDLL World P filename kind false w) =
  Returned (map ItemName (presented (names_of_kind kind dir))).
Proof.
  intros Hdisk Hkind.
  set (h := fresh w).
  set (w1 := mkWorld (disk w) (<[h := dir]> (libs w)) (mapped w) (sessions w)
               (locked w) h (last_error w)).
  assert (Hlib : libs w1 !! h = Some dir) by apply lookup_insert_eq.
  assert (Hload : ref_LoadLibraryEx (@filename_charset World P filename)
                    filename 0 load_flags w = (FRet h, w1)).
  { unfold ref_LoadLibraryEx. now rewrite Hdisk. }
  destruct (ref_EnumResourceNames_presents h kind dir w1 Hlib Hkind)
    as [w2 [Henum [Hlibs2 _]]].
  pose proof (@enumerate_names World P h kind PyNone
                (presented (names_of_kind kind dir)) [] w2) as Hloop.
  cbn [app] in Hloop.
  assert (Hfree : exists w4, ref_FreeLibrary h w2 = (FRet 1, w4)).
  { unfold ref_FreeLibrary. rewrite Hlibs2, Hlib. now eexists. }
  destruct Hfree as [w4 Hfree].
  rewrite (@getResourcesFromDLL_run_ok World P filename kind false w h
             (presented (names_of_kind kind dir)) true
             (map ItemName (presented (names_of_kind kind dir))) 1 w1 w2 w4
             Hload (fresh_not_null w) Henum).
  - reflexivity.
  - now rewrite Hloop.
  - now rewrite Hloop.
Qed.

Lemma integer_named_filter kind (p : Entry -> bool) dir :
  integer_named kind dir = true ->
  integer_named kind (List.filter p dir) = true.
Proof.
  unfold integer_named. rewrite !forallb_forall. intros Hdir e He.
  apply filter_In in He as [He _]. now apply Hdir.
Qed.

(** X14: on the reference platform, deleting a resource through
    [addResourceToFile] with no data is observable: in a file whose resources
    of the kind have integer identifiers, when the resource exists in the
    neutral language only, the listing of its kind no longer contains its
    identifier, and contains every other identifier exactly as before. *)
Theorem X14_deletion_is_observable
    (target : PyPath) (kind n : Z) (dir : list Entry) (w : World) :
  disk w !! path_text target = Some dir ->
  path_text target ∉ locked w ->
  resource_id kind = true ->
  resource_id n = true ->
  integer_named kind dir = true ->
  (forall e, In e dir -> same_name kind (IntId n) e = true -> e_lang e = 0) ->
  let r := @addResourceToFile World P target None kind (IntId n) w in
  out r = Returned PyNone /\
  exists items,
    out (@getResourcesFromDLL World P target kind false (world r))
      = Returned items /\
    ~ In (ItemName (IntId n)) items /\
    forall other, other <> IntId n ->
      (In (ItemName other) items <-> In other (names_of_kind kind dir)).
Proof.
  intros Hdisk Hfree Hkind Hid Hdir Hneutral. set (name := IntId n). intros r.
  pose proof (resource_id_passes kind Hkind) as Hpass.
  destruct (addResourceToFile_disk py3 propagate target None kind name dir w
              Hdisk Hfree) as [Hout [Hd _]].
  fold r in Hout, Hd. split; [exact Hout |].
  set (dir' := apply_staged dir (mkStaged kind name 0 None)) in *.
  assert (Hdisk' : disk (world r) !! path_text target = Some dir')
    by (rewrite Hd; apply lookup_insert_eq).
  assert (Hdir' : integer_named kind dir' = true)
    by (unfold dir', apply_staged; cbn [s_data]; now apply integer_named_filter).
  eexists. split;
    [rewrite (getResourcesFromDLL_lists target kind dir' _ Hdisk' Hpass),
       (presented_names kind dir' Hdir'); reflexivity |].
  assert (Hitem : forall m, In (ItemName m) (map ItemName (names_of_kind kind dir'))
                            <-> In m (names_of_kind kind dir')).
  { intros m. rewrite in_map_iff. split.
    - intros [m' [Heq Hin]]. now injection Heq as ->.
    - intros Hin. now exists m. }
  assert (Hin' : forall e, In e dir' <->
                           In e dir /\ same_key kind name 0 e = false).
  { intros e. unfold dir', apply_staged. cbn [s_kind s_name s_lang s_data].
    rewrite filter_In. now rewrite negb_true_iff. }
  split.
  - rewrite Hitem, in_names_of_kind. intros [e [Hin [Hk Hn]]].
    apply Hin' in Hin as [Hin Hkey].
    assert (Hs : same_name kind name e = true).
    { unfold same_name. rewrite Hk, Z.eqb_refl.
      now rewrite bool_decide_eq_true_2. }
    unfold same_key in Hkey. rewrite Hs, (Hneutral e Hin Hs) in Hkey.
    discriminate.
  - intros other Hother. rewrite Hitem, !in_names_of_kind.
    split; intros [e [Hin [Hk Hn]]]; exists e.
    + apply Hin' in Hin as [Hin _]. now repeat split.
    + repeat split; try assumption. apply Hin'. split; [exact Hin |].
      unfold same_key, same_name.
      rewrite (bool_decide_eq_false_2 (e_name e = name)) by congruence.
      now rewrite andb_false_r.
Qed.

End ReferenceCopy.

Section ReferenceCopy2.
Import Reference.
Variables py3 propagate : bool.
Abbreviation P := (platform py3 propagate).

(** The staged operation of the copy for one name. *)
Definition copy_op (kind : Z) (f : ResName -> list Byte.byte) (name : ResName)
    : Staged :=
  mkStaged kind name 0 (Some (f name)).

(** With an open session, the loop of the copy has every item accepted and
    leaves them staged in order. *)
Lemma copy_loop_stages_all h kind (f : ResName -> list Byte.byte) names
    path base staged w :
  sessions w !! h = Some (mkSession path base staged) ->
  let r := @copy_loop World P h kind
             (map (fun name => ItemData kind name (f name)) names) w in
  out r = Returned tt /\
  sessions (world r) !! h =
    Some (mkSession path base (staged ++ map (copy_op kind f) names)) /\
  disk (world r) = disk w.
Proof.
  revert staged w.
  induction names as [|name rest IH]; intros staged w Hsess r; subst r.
  - cbn [map copy_loop ret out world]. now rewrite app_nil_r.
  - cbn [map copy_loop]. rewrite Z.eqb_refl. cbn [negb].
    rewrite bind_run, _updateResource_run.
    cbn [k32_UpdateResource platform payload_size].
    set (w' := mkWorld (disk w) (libs w) (mapped w)
                 (<[h := mkSession path base
                            (staged ++ [copy_op kind f name])]> (sessions w))
                 (locked w) (next_handle w) (last_error w)).
    assert (Hupd : ref_UpdateResource Narrow h kind name 0 (Some (f name))
                     (Z.of_nat (length (f name))) w = (FRet 1, w')).
    { unfold ref_UpdateResource. rewrite Hsess.
      cbn [u_path u_base u_staged option_map].
      now rewrite read_payload_whole. }
    rewrite Hupd. change (1 =? 0) with false. cbn [out world events].
    unfold after. cbn [out world].
    destruct (IH (staged ++ [copy_op kind f name]) w') as [Ho [Hs Hd]];
      [apply lookup_insert_eq |].
    rewrite Ho, Hs, Hd. rewrite <- app_assoc. repeat split.
Qed.

Lemma same_key_other_name kind name name' e :
  name' <> name ->
  same_key kind name' 0 e = true -> same_key kind name 0 e = false.
Proof.
  intros Hne He. apply (same_name_other kind name kind name' e);
    [now right |].
  unfold same_key in He. now apply andb_true_iff in He as [He _].
Qed.

Lemma commit_keeps_find kind f names base name :
  ~ In name names ->
  List.find (same_key kind name 0) (commit base (map (copy_op kind f) names)) =
  List.find (same_key kind name 0) base.
Proof.
  unfold commit. revert base.
  induction names as [|m rest IH]; intros base Hnot; [reflexivity |].
  cbn [map fold_left]. rewrite IH by (intros Hin; apply Hnot; now right).
  assert (Hm : name <> m) by (intros ->; apply Hnot; now left).
  unfold apply_staged, copy_op. cbn [s_kind s_name s_lang s_data].
  rewrite find_app_last.
  - apply find_other. intros e. now apply same_key_other_name.
  - unfold same_key, same_name. cbn [e_kind e_name e_lang].
    rewrite (bool_decide_eq_false_2 (m = name)) by congruence.
    now rewrite andb_false_r.
Qed.

Lemma commit_resolves kind f names base name :
  NoDup names -> In name names ->
  find_entry kind name (commit base (map (copy_op kind f) names)) =
  Some (mkEntry kind name 0 (f name)).
Proof.
  intros Hnd Hin.
  assert (Hfind :
    List.find (same_key kind name 0)
      (commit base (map (copy_op kind f) names))
    = Some (mkEntry kind name 0 (f name))).
  { revert base. induction Hnd as [|m rest Hm Hnd IH]; intros base;
      [destruct Hin |].
    change (commit base (map (copy_op kind f) (m :: rest)))
      with (commit (apply_staged base (copy_op kind f m))
                   (map (copy_op kind f) rest)).
    destruct Hin as [->|Hin].
    - rewrite commit_keeps_find by (rewrite <- list_elem_of_In; exact Hm).
      unfold apply_staged, copy_op. cbn [s_kind s_name s_lang s_data].
      apply find_after_filter.
      unfold same_key, same_name. cbn [e_kind e_name e_lang].
      rewrite !Z.eqb_refl. now rewrite bool_decide_eq_true_2.
    - now apply IH. }
  unfold find_entry. now rewrite Hfind.
Qed.

(** X15: on the reference platform, copy fidelity: for a source whose
    resources of the kind have integer identifiers, after
    [copyResourcesFromFileToFile] every one of them resolves in the target to
    a neutral-language entry with the payload it has in the source. *)
Theorem X15_copy_fidelity
    (source target : PyPath) (kind : Z) (dir_s dir_t : list Entry)
    (w : World) :
  disk w !! path_text source = Some dir_s ->
  disk w !! path_text target = Some dir_t ->
  path_text target ∉ locked w ->
  resource_id kind = true ->
  integer_named kind dir_s = true ->
  let r := @copyResourcesFromFileToFile World P source target kind w in
  out r = Returned PyNone /\
  exists dir',
    disk (world r) !! path_text target = Some dir' /\
    forall name, In name (names_of_kind kind dir_s) ->
      find_entry kind name dir' =
      Some (mkEntry kind name 0 (entry_data kind name dir_s)).
Proof.
  intros Hs Ht Hfree Hkind Hnamed r.
  set (f := fun name => entry_data kind name dir_s).
  set (g := @getResourcesFromDLL World P source kind true w).
  assert (Hg : out g = Returned (map (fun name => ItemData kind name (f name))
                                     (names_of_kind kind dir_s))).
  { unfold g.
    rewrite (getResourcesFromDLL_extracts py3 propagate source kind dir_s w
               Hs (resource_id_passes kind Hkind)).
    now rewrite presented_names. }
  assert (Hkeep : (disk (world g), locked (world g)) = (disk w, locked w))
    by apply (@getResourcesFromDLL_keeps World _ P _
                (ref_read_only_locks py3 propagate)).
  injection Hkeep as Hdisk Hlocked.
  destruct (names_of_kind kind dir_s) as [|n names] eqn:Hnames.
  - subst r. unfold copyResourcesFromFileToFile. rewrite bind_run.
    fold g. rewrite Hg. cbn [map]. unfold after, ret. cbn [out world].
    split; [reflexivity |]. exists dir_t. split; [now rewrite Hdisk |].
    intros name [].
  - rewrite <- Hnames in *.
    assert (Hcons : exists it rest,
      map (fun name => ItemData kind name (f name)) (names_of_kind kind dir_s)
        = it :: rest) by (rewrite Hnames; cbn [map]; eauto).
    destruct Hcons as [it [rest Hcons]].
    set (h := fresh (world g)).
    set (path := path_text target).
    set (w1 := mkWorld (disk (world g)) (libs (world g)) (mapped (world g))
                 (<[h := mkSession path dir_t []]> (sessions (world g)))
                 ({[path]} ∪ locked (world g)) h (last_error (world g))).
    assert (Hbegin :
      ref_BeginUpdateResource (@filename_charset World P target) target false
        (world g) = (FRet h, w1)).
    { assert (Ht' : disk (world g) !! path_text target = Some dir_t)
        by (rewrite Hdisk; exact Ht).
      assert (Hfree' : path_text target ∉ locked (world g))
        by (rewrite Hlocked; exact Hfree).
      unfold ref_BeginUpdateResource. cbv zeta. rewrite Ht'.
      now rewrite bool_decide_eq_false_2 by exact Hfree'. }
    destruct (copy_loop_stages_all h kind f (names_of_kind kind dir_s) path
                dir_t [] w1) as [Hloop [Hsess Hdisk1]];
      [apply lookup_insert_eq |].
    cbn [app] in Hsess. rewrite Hcons in Hloop, Hsess, Hdisk1.
    set (loop := @copy_loop World P h kind (it :: rest) w1) in *.
    assert (Hend : exists w3,
      ref_EndUpdateResource Narrow h false (world loop) = (FRet 1, w3) /\
      disk w3 !! path =
        Some (commit dir_t (map (copy_op kind f) (names_of_kind kind dir_s)))).
    { unfold ref_EndUpdateResource. rewrite Hsess. eexists.
      split; [reflexivity |]. cbn [disk u_path u_base u_staged].
      apply lookup_insert_eq. }
    destruct Hend as [w3 [Hend Hdisk3]].
    rewrite Hcons in Hg.
    destruct (@copyResourcesFromFileToFile_run_ok World P source target kind w
                it rest h 1 w1 w3 Hg Hbegin (fresh_not_null _) Hloop Hend
                ltac:(lia)) as [Hout Hworld].
    fold r in Hout, Hworld. split; [exact Hout |].
    rewrite Hworld. eexists. split; [exact Hdisk3 |].
    intros name Hin.
    apply (commit_resolves kind f); [apply names_of_kind_NoDup | exact Hin].
Qed.

(** X16: on the reference platform, the session that
    [deleteWindowsResources] leaves open keeps the file locked: the file is
    unchanged, and every later [addResourceToFile] on the same file fails to
    open its session and raises [WinError] for a sharing violation. *)
Theorem X16_failed_delete_blocks_later_updates
    (target : PyPath) (kind : Z) (name : ResName) (rest : list ResName)
    (dir : list Entry) (w : World)
    (data : option (list Byte.byte)) (kind' : Z) (name' : ResName) :
  disk w !! path_text target = Some dir ->
  path_text target ∉ locked w ->
  let r := @deleteWindowsResources World P target kind (name :: rest) w in
  disk (world r) = disk w /\
  path_text target ∈ locked (world r) /\
  out (@addResourceToFile World P target data kind' name' (world r)) =
    Raised (WinError ERROR_SHARING_VIOLATION).
Proof.
  intros Hdisk Hfree r.
  set (h := fresh w).
  set (path := path_text target).
  set (w1 := mkWorld (disk w) (libs w) (mapped w)
               (<[h := mkSession path dir []]> (sessions w))
               ({[path]} ∪ locked w) h (last_error w)).
  set (w2 := mkWorld (disk w1) (libs w1) (mapped w1)
               (<[h := mkSession path dir [mkStaged kind name 0 None]]>
                  (sessions w1))
               (locked w1) (next_handle w1) (last_error w1)).
  assert (Hbegin : @k32_BeginUpdateResource World P (@filename_charset World P target)
                     target false w = (FRet h, w1)).
  { cbn [k32_BeginUpdateResource platform]. unfold ref_BeginUpdateResource.
    cbv zeta. rewrite Hdisk.
    now rewrite bool_decide_eq_false_2 by exact Hfree. }
  assert (Hupd : @k32_UpdateResource World P Narrow h kind name 0 None 0 w1
                 = (FRet 1, w2)).
  { cbn [k32_UpdateResource platform]. unfold ref_UpdateResource.
    cbn [sessions w1]. now rewrite lookup_insert_eq. }
  assert (Hr : world r = w2).
  { subst r. unfold deleteWindowsResources.
    rewrite bind_run, _openFileWindowsResources_run, Hbegin.
    assert (Hh : (h =? 0) = false) by apply Z.eqb_neq, fresh_not_null.
    rewrite Hh.
    cbn [out world events].
    rewrite bind_run, delete_loop_cons_run, _updateResource_run.
    cbn [payload_size]. rewrite Hupd. reflexivity. }
  rewrite Hr. split; [reflexivity |]. split.
  - cbn [locked w2 w1]. apply elem_of_union_l. now apply elem_of_singleton.
  - assert (Hblocked :
      @k32_BeginUpdateResource World P (@filename_charset World P target) target false
        w2 = (FRet 0, set_last_error ERROR_SHARING_VIOLATION w2)).
    { cbn [k32_BeginUpdateResource platform]. unfold ref_BeginUpdateResource.
      cbv zeta. cbn [disk w2 w1]. rewrite Hdisk.
      rewrite bool_decide_eq_true_2; [reflexivity |].
      cbn [locked w2 w1]. apply elem_of_union_l. now apply elem_of_singleton. }
    now rewrite (@addResourceToFile_open_failure World P target data kind'
                   name' w2 _ Hblocked).
Qed.

End ReferenceCopy2.

(** ** Runs of the further properties on the reference platform *)

(** A system like the reference one that refuses every staged operation. *)
Definition refusing : Platform Reference.World := {|
  str_is_not_bytes := true;
  callback_exceptions_propagate := false;
  GetLastError := Reference.last_error;
  k32_LoadLibraryEx := Reference.ref_LoadLibraryEx;
  k32_EnumResourceNames := Reference.ref_EnumResourceNames;
  k32_FreeLibrary := Reference.ref_FreeLibrary;
  k32_FindResource := Reference.ref_FindResource;
  k32_SizeofResource := Reference.ref_SizeofResource;
  k32_LoadResource := Reference.ref_LoadResource;
  k32_LockResource := Reference.ref_LockResource;
  ctypes_string_at := Reference.ref_string_at;
  k32_FreeResource := Reference.ref_FreeResource;
  k32_BeginUpdateResource := Reference.ref_BeginUpdateResource;
  k32_UpdateResource := fun _ _ _ _ _ _ _ w =>
    (FRet 0, Reference.set_last_error 5 w);
  k32_EndUpdateResource := Reference.ref_EndUpdateResource
|}.

Section MoreRuns.
Import Reference.
#[local] Existing Instance cpython3.

Lemma X1_load_failure_raises_WinError_witness :
  k32_LoadLibraryEx (filename_charset (StrPath "nope.dll"))
    (StrPath "nope.dll") 0 load_flags sample_world
    = (FRet 0, set_last_error ERROR_FILE_NOT_FOUND sample_world) /\
  getResourcesFromDLL (StrPath "nope.dll") RT_ICON true sample_world =
  mkRun (Raised (WinError 2))
        (set_last_error ERROR_FILE_NOT_FOUND sample_world)
        [EvLoadLibraryEx Wide (StrPath "nope.dll") 0 load_flags].
Proof.
  assert (Hload :
    k32_LoadLibraryEx (filename_charset (StrPath "nope.dll"))
      (StrPath "nope.dll") 0 load_flags sample_world
      = (FRet 0, set_last_error ERROR_FILE_NOT_FOUND sample_world))
    by (vm_compute; reflexivity).
  split; [exact Hload |].
  exact (X1_load_failure_raises_WinError (StrPath "nope.dll") RT_ICON true
           sample_world _ Hload).
Defined.

Lemma X2_names_only_listing_witness :
  k32_LoadLibraryEx (filename_charset (StrPath "app.exe")) (StrPath "app.exe")
    0 load_flags sample_world = (FRet 1, loaded_world) /\
  k32_EnumResourceNames Narrow 1 RT_MANIFEST loaded_world
    = (FRet [IntId 1], loaded_world) /\
  k32_FreeLibrary 1 loaded_world
    = (FRet 1, snd (ref_FreeLibrary 1 loaded_world)) /\
  out (getResourcesFromDLL (StrPath "app.exe") RT_MANIFEST false sample_world)
    = Returned [ItemName (IntId 1)].
Proof.
  assert (Hload :
    k32_LoadLibraryEx (filename_charset (StrPath "app.exe"))
      (StrPath "app.exe") 0 load_flags sample_world = (FRet 1, loaded_world))
    by (vm_compute; reflexivity).
  assert (Henum :
    k32_EnumResourceNames Narrow 1 RT_MANIFEST loaded_world
      = (FRet [IntId 1], loaded_world)) by (vm_compute; reflexivity).
  assert (Hfree :
    k32_FreeLibrary 1 loaded_world
      = (FRet 1, snd (ref_FreeLibrary 1 loaded_world)))
    by (vm_compute; reflexivity).
  split; [exact Hload | split; [exact Henum | split; [exact Hfree |]]].
  rewrite (X2_names_only_listing (StrPath "app.exe") RT_MANIFEST sample_world
             1 1 [IntId 1] loaded_world loaded_world
             (snd (ref_FreeLibrary 1 loaded_world))
             Hload ltac:(lia) Henum Hfree).
  reflexivity.
Defined.

Lemma X4_return_releases_library_once_witness :
  out (getResourcesFromDLL (StrPath "app.exe") RT_MANIFEST true sample_world)
    = Returned [ItemData RT_MANIFEST (IntId 1) manifest_bytes] /\
  count_events is_any_FreeLibrary
    (events (getResourcesFromDLL (StrPath "app.exe") RT_MANIFEST true
               sample_world)) = 1%nat.
Proof.
  assert (Hout :
    out (getResourcesFromDLL (StrPath "app.exe") RT_MANIFEST true sample_world)
      = Returned [ItemData RT_MANIFEST (IntId 1) manifest_bytes])
    by (vm_compute; reflexivity).
  split; [exact Hout |].
  destruct (X4_return_releases_library_once (StrPath "app.exe") RT_MANIFEST
              true sample_world _ Hout) as [h [middle [_ [_ Hcount]]]].
  exact Hcount.
Defined.

Lemma X5_dropped_callback_errors_still_release_witness :
  callback_exceptions_propagate = false /\
  k32_LoadLibraryEx (filename_charset (StrPath "app.exe")) (StrPath "app.exe")
    0 load_flags sample_world = (FRet 1, loaded_world) /\
  k32_EnumResourceNames Narrow 1 RT_MANIFEST loaded_world
    = (FRet [IntId 1], loaded_world) /\
  exists middle,
    events (getResourcesFromDLL (StrPath "app.exe") RT_MANIFEST true
              sample_world) =
      [EvLoadLibraryEx (filename_charset (StrPath "app.exe"))
         (StrPath "app.exe") 0 load_flags;
       EvEnumResourceNames Narrow 1 RT_MANIFEST]
      ++ middle ++ [EvFreeLibrary 1] /\
    count_events is_any_FreeLibrary middle = 0%nat.
Proof.
  assert (Hload :
    k32_LoadLibraryEx (filename_charset (StrPath "app.exe"))
      (StrPath "app.exe") 0 load_flags sample_world = (FRet 1, loaded_world))
    by (vm_compute; reflexivity).
  assert (Henum :
    k32_EnumResourceNames Narrow 1 RT_MANIFEST loaded_world
      = (FRet [IntId 1], loaded_world)) by (vm_compute; reflexivity).
  split; [reflexivity | split; [exact Hload | split; [exact Henum |]]].
  exact (X5_dropped_callback_errors_still_release (StrPath "app.exe")
           RT_MANIFEST true sample_world 1 [IntId 1] loaded_world loaded_world
           eq_refl Hload ltac:(lia) Henum).
Defined.

Lemma X6_delete_returns_only_for_empty_list_witness :
  returned (out (deleteWindowsResources (StrPath "app.exe") RT_MANIFEST []
                   sample_world)) = true /\
  exists update_handle,
    events (deleteWindowsResources (StrPath "app.exe") RT_MANIFEST []
              sample_world) =
      [EvBeginUpdateResource (filename_charset (StrPath "app.exe"))
         (StrPath "app.exe") false;
       EvEndUpdateResource Narrow update_handle false].
Proof.
  assert (Hret :
    returned (out (deleteWindowsResources (StrPath "app.exe") RT_MANIFEST []
                     sample_world)) = true) by (vm_compute; reflexivity).
  split; [exact Hret |].
  exact (proj2 (X6_delete_returns_only_for_empty_list (StrPath "app.exe")
                  RT_MANIFEST [] sample_world Hret)).
Defined.

Lemma X7_open_failure_makes_no_further_call_witness :
  k32_BeginUpdateResource (filename_charset (StrPath "nope.dll"))
    (StrPath "nope.dll") false sample_world
    = (FRet 0, set_last_error ERROR_FILE_NOT_FOUND sample_world) /\
  out (addResourceToFile (StrPath "nope.dll") (Some icon_bytes) RT_ICON
         (IntId 7) sample_world) = Raised (WinError 2).
Proof.
  assert (Hbegin :
    k32_BeginUpdateResource (filename_charset (StrPath "nope.dll"))
      (StrPath "nope.dll") false sample_world
      = (FRet 0, set_last_error ERROR_FILE_NOT_FOUND sample_world))
    by (vm_compute; reflexivity).
  split; [exact Hbegin |].
  destruct (X7_open_failure_makes_no_further_call (StrPath "nope.dll")
              (Some icon_bytes) RT_ICON (IntId 7) [] sample_world _ Hbegin)
    as [Hadd _].
  rewrite Hadd. reflexivity.
Defined.

Lemma X10_copy_commits_only_after_staging_all_witness :
  out (getResourcesFromDLL (StrPath "app.exe") RT_MANIFEST true sample_world)
    = Returned [ItemData RT_MANIFEST (IntId 1) manifest_bytes] /\
  exists update_handle,
    events (copyResourcesFromFileToFile (StrPath "app.exe")
              (StrPath "empty.dll") RT_MANIFEST sample_world) =
      events (getResourcesFromDLL (StrPath "app.exe") RT_MANIFEST true
                sample_world)
      ++ [EvBeginUpdateResource (filename_charset (StrPath "empty.dll"))
            (StrPath "empty.dll") false]
      ++ map (stage_event update_handle RT_MANIFEST)
             [ItemData RT_MANIFEST (IntId 1) manifest_bytes]
      ++ [EvEndUpdateResource Narrow update_handle false].
Proof.
  assert (Hout :
    out (getResourcesFromDLL (StrPath "app.exe") RT_MANIFEST true sample_world)
      = Returned [ItemData RT_MANIFEST (IntId 1) manifest_bytes])
    by (vm_compute; reflexivity).
  assert (Hcommit :
    (0 < count_events is_commit
           (events (copyResourcesFromFileToFile (StrPath "app.exe")
                      (StrPath "empty.dll") RT_MANIFEST sample_world)))%nat)
    by (vm_compute; lia).
  split; [exact Hout |].
  exact (X10_copy_commits_only_after_staging_all (StrPath "app.exe")
           (StrPath "empty.dll") RT_MANIFEST sample_world _ Hout Hcommit).
Defined.

Lemma X12_extraction_returns_the_resources_of_the_kind_witness :
  disk sample_world !! path_text (StrPath "app.exe") = Some app_directory /\
  resource_id RT_ICON = true /\
  integer_named RT_ICON app_directory = true /\
  out (getResourcesFromDLL (StrPath "app.exe") RT_ICON true sample_world) =
    Returned (map (fun name =>
                     ItemData RT_ICON name
                       (entry_data RT_ICON name app_directory))
                  (names_of_kind RT_ICON app_directory)).
Proof.
  assert (Hdisk :
    disk sample_world !! path_text (StrPath "app.exe") = Some app_directory)
    by reflexivity.
  assert (Hkind : resource_id RT_ICON = true) by reflexivity.
  assert (Hnamed : integer_named RT_ICON app_directory = true) by reflexivity.
  split; [exact Hdisk | split; [exact Hkind | split; [exact Hnamed |]]].
  exact (proj1 (X12_extraction_returns_the_resources_of_the_kind true false
                  (StrPath "app.exe") RT_ICON app_directory sample_world
                  Hdisk Hkind Hnamed)).
Defined.

Lemma X13_add_leaves_other_resources_alone_witness :
  disk sample_world !! path_text (StrPath "app.exe") = Some app_directory /\
  forall other, other <> path_text (StrPath "app.exe") ->
    disk (world (addResourceToFile (StrPath "app.exe") (Some icon_bytes)
                   RT_ICON (IntId 8) sample_world)) !! other
    = disk sample_world !! other.
Proof.
  assert (Hdisk :
    disk sample_world !! path_text (StrPath "app.exe") = Some app_directory)
    by reflexivity.
  assert (Hfree : path_text (StrPath "app.exe") ∉ locked sample_world)
    by (cbn; apply not_elem_of_empty).
  split; [exact Hdisk |].
  exact (proj1 (X13_add_leaves_other_resources_alone true false
                  (StrPath "app.exe") (Some icon_bytes) RT_ICON (IntId 8)
                  app_directory sample_world Hdisk Hfree)).
Defined.

Lemma X14_deletion_is_observable_witness :
  disk sample_world !! path_text (StrPath "app.exe") = Some app_directory /\
  resource_id RT_ICON = true /\
  resource_id 7 = true /\
  integer_named RT_ICON app_directory = true /\
  out (addResourceToFile (StrPath "app.exe") None RT_ICON (IntId 7)
         sample_world) = Returned PyNone.
Proof.
  assert (Hdisk :
    disk sample_world !! path_text (StrPath "app.exe") = Some app_directory)
    by reflexivity.
  assert (Hkind : resource_id RT_ICON = true) by reflexivity.
  assert (Hid : resource_id 7 = true) by reflexivity.
  assert (Hnamed : integer_named RT_ICON app_directory = true) by reflexivity.
  assert (Hfree : path_text (StrPath "app.exe") ∉ locked sample_world)
    by (cbn; apply not_elem_of_empty).
  assert (Hneutral : forall e, In e app_directory ->
            same_name RT_ICON (IntId 7) e = true -> e_lang e = 0).
  { intros e [<-|[<-|[]]] _; reflexivity. }
  split; [exact Hdisk |
    split; [exact Hkind | split; [exact Hid | split; [exact Hnamed |]]]].
  exact (proj1 (X14_deletion_is_observable true false (StrPath "app.exe")
                  RT_ICON 7 app_directory sample_world Hdisk Hfree
                  Hkind Hid Hnamed Hneutral)).
Defined.

Lemma X15_copy_fidelity_witness :
  disk sample_world !! path_text (StrPath "app.exe") = Some app_directory /\
  disk sample_world !! path_text (StrPath "empty.dll") = Some [] /\
  resource_id RT_MANIFEST = true /\
  integer_named RT_MANIFEST app_directory = true /\
  out (copyResourcesFromFileToFile (StrPath "app.exe") (StrPath "empty.dll")
         RT_MANIFEST sample_world) = Returned PyNone.
Proof.
  assert (Hs :
    disk sample_world !! path_text (StrPath "app.exe") = Some app_directory)
    by reflexivity.
  assert (Ht : disk sample_world !! path_text (StrPath "empty.dll") = Some [])
    by reflexivity.
  assert (Hkind : resource_id RT_MANIFEST = true) by reflexivity.
  assert (Hnamed : integer_named RT_MANIFEST app_directory = true)
    by reflexivity.
  assert (Hfree : path_text (StrPath "empty.dll") ∉ locked sample_world)
    by (cbn; apply not_elem_of_empty).
  split; [exact Hs |
    split; [exact Ht | split; [exact Hkind | split; [exact Hnamed |]]]].
  exact (proj1 (X15_copy_fidelity true false (StrPath "app.exe")
                  (StrPath "empty.dll") RT_MANIFEST app_directory []
                  sample_world Hs Ht Hfree Hkind Hnamed)).
Defined.

Lemma X16_failed_delete_blocks_later_updates_witness :
  disk sample_world !! path_text (StrPath "app.exe") = Some app_directory /\
  out (addResourceToFile (StrPath "app.exe") (Some icon_bytes) RT_ICON
         (IntId 8)
         (world (deleteWindowsResources (StrPath "app.exe") RT_MANIFEST
                   [IntId 1] sample_world)))
    = Raised (WinError ERROR_SHARING_VIOLATION).
Proof.
  assert (Hdisk :
    disk sample_world !! path_text (StrPath "app.exe") = Some app_directory)
    by reflexivity.
  assert (Hfree : path_text (StrPath "app.exe") ∉ locked sample_world)
    by (cbn; apply not_elem_of_empty).
  split; [exact Hdisk |].
  exact (proj2 (proj2 (X16_failed_delete_blocks_later_updates true false
                         (StrPath "app.exe") RT_MANIFEST (IntId 1) []
                         app_directory sample_world (Some icon_bytes) RT_ICON
                         (IntId 8) Hdisk Hfree))).
Defined.

End MoreRuns.

Lemma X8_add_refused_staging_skips_commit_witness :
  @k32_BeginUpdateResource _ refusing
    (@filename_charset _ refusing (StrPath "app.exe")) (StrPath "app.exe")
    false Reference.sample_world = (FRet 1, Reference.session_world) /\
  @k32_UpdateResource _ refusing Narrow 1 RT_ICON (IntId 8) 0
    (Some Reference.icon_bytes) (payload_size (Some Reference.icon_bytes))
    Reference.session_world
    = (FRet 0, Reference.set_last_error 5 Reference.session_world) /\
  @addResourceToFile _ refusing (StrPath "app.exe")
    (Some Reference.icon_bytes) RT_ICON (IntId 8) Reference.sample_world =
  mkRun (Raised (WinError 5))
        (Reference.set_last_error 5 Reference.session_world)
        [EvBeginUpdateResource Wide (StrPath "app.exe") false;
         EvUpdateResource Narrow 1 RT_ICON (IntId 8) 0
           (Some Reference.icon_bytes) 2].
Proof.
  assert (Hbegin :
    @k32_BeginUpdateResource _ refusing
      (@filename_charset _ refusing (StrPath "app.exe")) (StrPath "app.exe")
      false Reference.sample_world = (FRet 1, Reference.session_world))
    by (vm_compute; reflexivity).
  assert (Hupd :
    @k32_UpdateResource _ refusing Narrow 1 RT_ICON (IntId 8) 0
      (Some Reference.icon_bytes) (payload_size (Some Reference.icon_bytes))
      Reference.session_world
      = (FRet 0, Reference.set_last_error 5 Reference.session_world))
    by reflexivity.
  split; [exact Hbegin | split; [exact Hupd |]].
  exact (@X8_add_refused_staging_skips_commit _ refusing (StrPath "app.exe")
           (Some Reference.icon_bytes) RT_ICON (IntId 8)
           Reference.sample_world 1 Reference.session_world
           (Reference.set_last_error 5 Reference.session_world)
           Hbegin ltac:(lia) Hupd).
Defined.

(** ** The commit step and the order of the extracted items *)


(** A system like the reference one whose commit call always fails. *)
Definition failing_commit : Platform Reference.World := {|
  str_is_not_bytes := true;
  callback_exceptions_propagate := false;
  GetLastError := Reference.last_error;
  k32_LoadLibraryEx := Reference.ref_LoadLibraryEx;
  k32_EnumResourceNames := Reference.ref_EnumResourceNames;
  k32_FreeLibrary := Reference.ref_FreeLibrary;
  k32_FindResource := Reference.ref_FindResource;
  k32_SizeofResource := Reference.ref_SizeofResource;
  k32_LoadResource := Reference.ref_LoadResource;
  k32_LockResource := Reference.ref_LockResource;
  ctypes_string_at := Reference.ref_string_at;
  k32_FreeResource := Reference.ref_FreeResource;
  k32_BeginUpdateResource := Reference.ref_BeginUpdateResource;
  k32_UpdateResource := Reference.ref_UpdateResource;
  k32_EndUpdateResource := fun _ _ _ w =>
    (FRet 0, Reference.set_last_error 5 w)
|}.

Section CommitAndOrder.
Context {W : Type} `{Platform W}.



(** X17: when the session is opened and the staged operation accepted but the
    commit call answers zero, [addResourceToFile] raises [WinError] for the
    last error, after exactly the three calls open, stage, commit. *)
Theorem X17_add_failed_commit_raises_WinError
    (target_filename : PyPath) (data : option (list Byte.byte))
    (resource_kind : Z) (res_name : ResName) (w : W)
    (update_handle staged : Z) (w1 w2 w3 : W) :
  k32_BeginUpdateResource (filename_charset target_filename) target_filename
    false w = (FRet update_handle, w1) ->
  update_handle <> 0 ->
  k32_UpdateResource Narrow update_handle resource_kind res_name 0 data
    (payload_size data) w1 = (FRet staged, w2) ->
  staged <> 0 ->
  k32_EndUpdateResource Narrow update_handle false w2 = (FRet 0, w3) ->
  addResourceToFile target_filename data resource_kind res_name w =
  mkRun (Raised (WinError (GetLastError w3))) w3
        [EvBeginUpdateResource (filename_charset target_filename)
           target_filename false;
         EvUpdateResource Narrow update_handle resource_kind res_name 0 data
           (payload_size data);
         EvEndUpdateResource Narrow update_handle false].
Proof.
  intros Hbegin Hh Hupd Hs Hend.
  apply Z.eqb_neq in Hh, Hs.
  unfold addResourceToFile.
  rewrite bind_run, _openFileWindowsResources_run, Hbegin, Hh.
  cbn [out world events].
  rewrite bind_run, _updateResource_run, Hupd, Hs.
  cbn [out world events].
  rewrite ?bind_run, _closeFileWindowsResources_run, Hend.
  reflexivity.
Qed.


End CommitAndOrder.

Lemma X17_add_failed_commit_raises_WinError_witness :
  @k32_EndUpdateResource _ failing_commit Narrow 1 false Reference.staged_world
    = (FRet 0, Reference.set_last_error 5 Reference.staged_world) /\
  out (@addResourceToFile _ failing_commit (StrPath "app.exe") None
         RT_MANIFEST (IntId 1) Reference.sample_world)
    = Raised (WinError 5).
Proof.
  assert (Hbegin :
    @k32_BeginUpdateResource _ failing_commit
      (@filename_charset _ failing_commit (StrPath "app.exe"))
      (StrPath "app.exe") false Reference.sample_world
      = (FRet 1, Reference.session_world)) by (vm_compute; reflexivity).
  assert (Hupd :
    @k32_UpdateResource _ failing_commit Narrow 1 RT_MANIFEST (IntId 1) 0
      None (payload_size None) Reference.session_world
      = (FRet 1, Reference.staged_world)) by (vm_compute; reflexivity).
  assert (Hend :
    @k32_EndUpdateResource _ failing_commit Narrow 1 false
      Reference.staged_world
      = (FRet 0, Reference.set_last_error 5 Reference.staged_world))
    by reflexivity.
  split; [exact Hend |].
  rewrite (@X17_add_failed_commit_raises_WinError _ failing_commit
             (StrPath "app.exe") None RT_MANIFEST (IntId 1)
             Reference.sample_world 1 1 Reference.session_world
             Reference.staged_world
             (Reference.set_last_error 5 Reference.staged_world)
             Hbegin ltac:(lia) Hupd ltac:(lia) Hend).
  reflexivity.
Defined.

